(** * kubetest2-tester-gitremote: the tester of [pkg/tester/tester.go]

    A shallow embedding of the [Tester] record and of [Execute],
    [initKubetest2Info], [Test], [pretestSetup], [NewDefaultTester] and
    [Main], together with the library routines [Test] calls to build the
    ginkgo command line ([strconv.Itoa], [time.Duration.String],
    [shellquote.Split]).  Calls that leave the process (flag parsing, the
    environment, git, the metadata writer, the child process) are answered
    by a [World] record and recorded in a trace of [Event]s. *)

From Stdlib Require Import ZArith NArith List String Ascii Bool Lia.
Import ListNotations.

Open Scope string_scope.
Open Scope Z_scope.

(* ================================================================= *)
(** ** Go values *)

(** A Go [error] returned by [fmt.Errorf] or [errors.New] is observed
    through its message only. *)
Definition error := string.

(** [nil] is [None]. *)
Definition nilable_error := option error.

(* ================================================================= *)
(** ** Standard-library routines used by [Test] *)

Module GoStd.

Definition digit (d : N) : ascii := ascii_of_N (48 + d).

(** The loop of [fmtInt] / [formatBits]:
    [for v > 0 { w--; buf[w] = byte(v%10) + '0'; v /= 10 }].
    One unit of fuel per binary digit of [v] is more than enough. *)
Fixpoint fmtInt_loop (fuel : nat) (v : N) (buf : string) : string :=
  match fuel with
  | O => buf
  | S fuel' =>
      if (v =? 0)%N then buf
      else fmtInt_loop fuel' (v / 10)%N (String (digit (v mod 10)%N) buf)
  end.

(** [fmtInt(buf, v)]: decimal digits of [v] written in front of [buf]. *)
Definition fmtInt (v : N) (buf : string) : string :=
  if (v =? 0)%N then String "0" buf
  else fmtInt_loop (N.to_nat (N.size v)) v buf.

(** Modelled from the spec: [strconv.Itoa] is Go's standard library, not
    part of this repository; section 4.3 asks for [--nodes=<N>], the
    decimal form of [N].  The definition follows the library: a minus sign
    for a negative number, then the digits of its magnitude. *)
Definition Itoa (i : Z) : string :=
  if i <? 0 then String "-" (fmtInt (Z.to_N (- i)) "")
  else fmtInt (Z.to_N i) "".

(** [fmtFrac(buf, v, prec)]: the [prec] low decimal digits of [v] as a
    fraction in front of [buf], trailing zeros and a bare point omitted;
    returns the buffer and [v / 10^prec]. *)
Fixpoint fmtFrac_loop (prec : nat) (v : N) (print : bool) (buf : string)
  : string * N * bool :=
  match prec with
  | O => (buf, v, print)
  | S prec' =>
      let d := (v mod 10)%N in
      let print' := print || negb (d =? 0)%N in
      fmtFrac_loop prec' (v / 10)%N print'
        (if print' then String (digit d) buf else buf)
  end.

Definition fmtFrac (buf : string) (v : N) (prec : nat) : string * N :=
  let '(buf', v', print) := fmtFrac_loop prec v false buf in
  (if print then String "." buf' else buf', v').

Definition Nanosecond  : Z := 1.
Definition Microsecond : Z := 1000 * Nanosecond.
Definition Millisecond : Z := 1000 * Microsecond.
Definition Second      : Z := 1000 * Millisecond.
Definition Minute      : Z := 60 * Second.
Definition Hour        : Z := 60 * Minute.

(** The two bytes of U+00B5, the micro sign. *)
Definition micro : string :=
  String (ascii_of_N 194) (String (ascii_of_N 181) "").

(** Modelled from the spec: [time.Duration.String] is Go's standard
    library, not part of this repository; section 4.3 asks for the
    duration's canonical string representation.  The definition follows
    the library's [format]: [d] is a count of nanoseconds; below one second
    the largest of ns, us (with the micro sign), ms that keeps the number
    at least 1 is used, from one second on hours, minutes and seconds, the
    leading zero units dropped and the seconds with up to nine decimals. *)
Definition Duration_String (d : Z) : string :=
  let neg := d <? 0 in
  let u := Z.to_N (Z.abs d) in
  let body :=
    if (u <? Z.to_N Second)%N then
      if (u =? 0)%N then "0s"
      else if (u <? Z.to_N Microsecond)%N then
        let '(b, u1) := fmtFrac "ns" u 0 in fmtInt u1 b
      else if (u <? Z.to_N Millisecond)%N then
        let '(b, u1) := fmtFrac (micro ++ "s") u 3 in fmtInt u1 b
      else
        let '(b, u1) := fmtFrac "ms" u 6 in fmtInt u1 b
    else
      let '(b, u1) := fmtFrac "s" u 9 in
      let b1 := fmtInt (u1 mod 60)%N b in
      let u2 := (u1 / 60)%N in
      if (0 <? u2)%N then
        let b2 := fmtInt (u2 mod 60)%N (String "m" b1) in
        let u3 := (u2 / 60)%N in
        if (0 <? u3)%N then fmtInt u3 (String "h" b2) else b2
      else b1
  in
  if neg then String "-" body else body.

End GoStd.

(* ================================================================= *)
(** ** [github.com/kballard/go-shellquote] *)

Module shellquote.

Definition UnterminatedSingleQuoteError : error :=
  "Unterminated single-quoted string".
Definition UnterminatedDoubleQuoteError : error :=
  "Unterminated double-quoted string".
Definition UnterminatedEscapeError : error :=
  "Unterminated backslash-escape".

Definition newline : ascii := ascii_of_N 10.
Definition tab : ascii := ascii_of_N 9.
Definition singleChar : ascii := ascii_of_N 39.
Definition doubleChar : ascii := ascii_of_N 34.
Definition escapeChar : ascii := ascii_of_N 92.

(** [splitChars]: space, newline, tab. *)
Definition isSplitChar (c : ascii) : bool :=
  Ascii.eqb c " " || Ascii.eqb c newline || Ascii.eqb c tab.

(** [doubleEscapeChars]: dollar, backquote, double quote, newline,
    backslash. *)
Definition isDoubleEscapeChar (c : ascii) : bool :=
  Ascii.eqb c "$" || Ascii.eqb c "`" || Ascii.eqb c doubleChar
  || Ascii.eqb c newline || Ascii.eqb c escapeChar.

(** Where the splitter is: in the loop of [Split] between words, or at one
    of the labels [raw], [escape], [single], [double] of [splitWord]. *)
Inductive place := Between | Raw | Escape | Single | Double.

Definition write (buf : string) (c : ascii) : string :=
  buf ++ String c "".

(** Modelled from the spec: [shellquote.Split] belongs to a library whose
    source is not part of this repository; section 4.3 asks for
    shell-word-splitting rules with quoting and escaping, failing on
    unbalanced quotes.  The definition follows the library's algorithm:
    the loop of [Split] and the labelled blocks of [splitWord] as one
    scanner over the bytes of the input.  Every rune the library tests
    for is ASCII and every byte of a longer UTF-8 sequence is at least
    128, so scanning bytes takes the same branches as scanning runes. *)
Fixpoint scan (p : place) (words : list string) (buf : string)
         (input : string) : error + list string :=
  match p, input with
  | Between, "" => inr words
  | Between, String c rest =>
      if isSplitChar c then scan Between words buf rest
      else if Ascii.eqb c escapeChar then
        match rest with
        | "" => inl UnterminatedEscapeError
        | String c2 rest2 =>
            if Ascii.eqb c2 newline then scan Between words buf rest2
            else scan Escape words "" rest
        end
      else if Ascii.eqb c singleChar then scan Single words "" rest
      else if Ascii.eqb c doubleChar then scan Double words "" rest
      else scan Raw words (String c "") rest
  | Raw, "" => inr (words ++ [buf])%list
  | Raw, String c rest =>
      if Ascii.eqb c singleChar then scan Single words buf rest
      else if Ascii.eqb c doubleChar then scan Double words buf rest
      else if Ascii.eqb c escapeChar then scan Escape words buf rest
      else if isSplitChar c then scan Between (words ++ [buf])%list "" rest
      else scan Raw words (write buf c) rest
  | Escape, "" => inl UnterminatedEscapeError
  | Escape, String c rest =>
      if Ascii.eqb c newline then scan Raw words buf rest
      else scan Raw words (write buf c) rest
  | Single, "" => inl UnterminatedSingleQuoteError
  | Single, String c rest =>
      if Ascii.eqb c singleChar then scan Raw words buf rest
      else scan Single words (write buf c) rest
  | Double, "" => inl UnterminatedDoubleQuoteError
  | Double, String c rest =>
      if Ascii.eqb c doubleChar then scan Raw words buf rest
      else if Ascii.eqb c escapeChar then
        match rest with
        | "" => inl UnterminatedDoubleQuoteError
        | String c2 rest2 =>
            if isDoubleEscapeChar c2 then
              if Ascii.eqb c2 newline then scan Double words buf rest2
              else scan Double words (write buf c2) rest2
            else scan Double words (write (write buf c) c2) rest2
        end
      else scan Double words (write buf c) rest
  end.

(** [Split(input)]: the words, or the error. *)
Definition Split (input : string) : error + list string :=
  scan Between [] "" input.

End shellquote.

(* ================================================================= *)
(** ** The configuration record *)

(** [type Tester struct]: [int] and [time.Duration] (nanoseconds) as [Z];
    a [nil] slice is the empty list. *)
Record Tester := mkTester {
  FlakeAttempts : Z;
  GinkgoArgs : string;
  Parallel : Z;
  SkipRegex : string;
  FocusRegex : string;
  Timeout : Z;
  Env : list string;
  Repo : string;
  kubeconfigPath : string;
  runDir : string;
  e2eTestPath : string;
  ginkgoPath : string;
  kubectlPath : string
}.

Definition set_FlakeAttempts (v : Z) (t : Tester) : Tester :=
  mkTester v (GinkgoArgs t) (Parallel t) (SkipRegex t) (FocusRegex t)
    (Timeout t) (Env t) (Repo t) (kubeconfigPath t) (runDir t)
    (e2eTestPath t) (ginkgoPath t) (kubectlPath t).
Definition set_GinkgoArgs (v : string) (t : Tester) : Tester :=
  mkTester (FlakeAttempts t) v (Parallel t) (SkipRegex t) (FocusRegex t)
    (Timeout t) (Env t) (Repo t) (kubeconfigPath t) (runDir t)
    (e2eTestPath t) (ginkgoPath t) (kubectlPath t).
Definition set_Parallel (v : Z) (t : Tester) : Tester :=
  mkTester (FlakeAttempts t) (GinkgoArgs t) v (SkipRegex t) (FocusRegex t)
    (Timeout t) (Env t) (Repo t) (kubeconfigPath t) (runDir t)
    (e2eTestPath t) (ginkgoPath t) (kubectlPath t).
Definition set_SkipRegex (v : string) (t : Tester) : Tester :=
  mkTester (FlakeAttempts t) (GinkgoArgs t) (Parallel t) v (FocusRegex t)
    (Timeout t) (Env t) (Repo t) (kubeconfigPath t) (runDir t)
    (e2eTestPath t) (ginkgoPath t) (kubectlPath t).
Definition set_FocusRegex (v : string) (t : Tester) : Tester :=
  mkTester (FlakeAttempts t) (GinkgoArgs t) (Parallel t) (SkipRegex t) v
    (Timeout t) (Env t) (Repo t) (kubeconfigPath t) (runDir t)
    (e2eTestPath t) (ginkgoPath t) (kubectlPath t).
Definition set_Timeout (v : Z) (t : Tester) : Tester :=
  mkTester (FlakeAttempts t) (GinkgoArgs t) (Parallel t) (SkipRegex t)
    (FocusRegex t) v (Env t) (Repo t) (kubeconfigPath t) (runDir t)
    (e2eTestPath t) (ginkgoPath t) (kubectlPath t).
Definition set_Env (v : list string) (t : Tester) : Tester :=
  mkTester (FlakeAttempts t) (GinkgoArgs t) (Parallel t) (SkipRegex t)
    (FocusRegex t) (Timeout t) v (Repo t) (kubeconfigPath t) (runDir t)
    (e2eTestPath t) (ginkgoPath t) (kubectlPath t).
Definition set_Repo (v : string) (t : Tester) : Tester :=
  mkTester (FlakeAttempts t) (GinkgoArgs t) (Parallel t) (SkipRegex t)
    (FocusRegex t) (Timeout t) (Env t) v (kubeconfigPath t) (runDir t)
    (e2eTestPath t) (ginkgoPath t) (kubectlPath t).
Definition set_kubeconfigPath (v : string) (t : Tester) : Tester :=
  mkTester (FlakeAttempts t) (GinkgoArgs t) (Parallel t) (SkipRegex t)
    (FocusRegex t) (Timeout t) (Env t) (Repo t) v (runDir t)
    (e2eTestPath t) (ginkgoPath t) (kubectlPath t).
Definition set_runDir (v : string) (t : Tester) : Tester :=
  mkTester (FlakeAttempts t) (GinkgoArgs t) (Parallel t) (SkipRegex t)
    (FocusRegex t) (Timeout t) (Env t) (Repo t) (kubeconfigPath t) v
    (e2eTestPath t) (ginkgoPath t) (kubectlPath t).

(** [NewDefaultTester]: the fields not named keep their zero value. *)
Definition NewDefaultTester : Tester :=
  {| FlakeAttempts := 1;
     GinkgoArgs := "";
     Parallel := 1;
     SkipRegex := "";
     FocusRegex := "";
     Timeout := 24 * GoStd.Hour;
     Env := [];
     Repo := "";
     kubeconfigPath := "";
     runDir := "";
     e2eTestPath := "";
     ginkgoPath := "";
     kubectlPath := "" |}.

(* ================================================================= *)
(** ** The outside of the process *)

(** One write of the flag set through the pointer that [gpflag.Parse] bound
    to an exported field of the [Tester]; it carries the field's new value.
    The unexported fields get no flag. *)
Inductive FlagWrite :=
| WFlakeAttempts (v : Z)
| WGinkgoArgs (v : string)
| WParallel (v : Z)
| WSkipRegex (v : string)
| WFocusRegex (v : string)
| WTimeout (v : Z)
| WEnv (v : list string)
| WRepo (v : string).

Definition apply_write (t : Tester) (f : FlagWrite) : Tester :=
  match f with
  | WFlakeAttempts v => set_FlakeAttempts v t
  | WGinkgoArgs v => set_GinkgoArgs v t
  | WParallel v => set_Parallel v t
  | WSkipRegex v => set_SkipRegex v t
  | WFocusRegex v => set_FocusRegex v t
  | WTimeout v => set_Timeout v t
  | WEnv v => set_Env v t
  | WRepo v => set_Repo v t
  end.

(** What [fs.Parse(os.Args)] did: the writes made while it went through the
    command line, then its error, or [nil] with the value of [*help]. *)
Record ParseOutcome := {
  writes : list FlagWrite;
  status : error + bool
}.

(** The answers of everything [Execute] calls outside this package. *)
Record World := {
  GitTag : string;
  gpflag_Parse : nilable_error;
  fs_Parse : ParseOutcome;
  LookupEnv : string -> option string;
  Getwd : error + string;
  WriteVersionToMetadata : string -> nilable_error;
  PlainClone : string -> string -> nilable_error;
  BaseDir : string;
  Run : string -> list string -> list string -> nilable_error
}.

(** Where flag documentation is written. *)
Inductive Stream := Stdout | Stderr.

(** What the process does that can be seen from outside, each with the
    answer it got. *)
Inductive Event :=
| EvPrintDefaults (out : Stream)
| EvWriteVersion (tag : string) (res : nilable_error)
| EvClone (path url : string) (res : nilable_error)
| EvInfo (msg : string)
| EvRun (path : string) (args env : list string) (res : nilable_error)
| EvFatal (msg : string).

(* ================================================================= *)
(** ** State and errors *)

Record State := {
  tester : Tester;
  trace : list Event
}.

(** A method on [*Tester] returning [error], or a value and an error. *)
Definition M (A : Type) : Type := State -> (error + A) * State.

Definition ret {A} (a : A) : M A := fun s => (inr a, s).
Definition fail {A} (e : error) : M A := fun s => (inl e, s).
Definition bind {A B} (m : M A) (k : A -> M B) : M B :=
  fun s =>
    match m s with
    | (inl e, s') => (inl e, s')
    | (inr a, s') => k a s'
    end.

Notation "x <- m ;; k" := (bind m (fun x => k))
  (at level 61, m at next level, right associativity).
Notation "m ;;; k" := (bind m (fun _ => k))
  (at level 61, right associativity).

Definition getT : M Tester := fun s => (inr (tester s), s).
Definition modifyT (f : Tester -> Tester) : M unit :=
  fun s => (inr tt, {| tester := f (tester s); trace := trace s |}).
Definition emit (e : Event) : M unit :=
  fun s => (inr tt, {| tester := tester s; trace := (trace s ++ [e])%list |}).

(** [if err != nil { return f(err) }]. *)
Definition check (r : nilable_error) (f : error -> error) : M unit :=
  match r with
  | Some err => fail (f err)
  | None => ret tt
  end.

(** [fmt.Errorf(prefix + ": %v", err)]. *)
Definition Errorf (prefix : string) (err : error) : error :=
  prefix ++ ": " ++ err.

(** [%+v] of a [[]string]. *)
Definition fmt_strings (l : list string) : string :=
  "[" ++ String.concat " " l ++ "]".

(* ================================================================= *)
(** ** The methods of [tester.go] *)

Section Methods.

Variable w : World.

(** [func (t *Tester) pretestSetup() error]. *)
Definition pretestSetup : M unit :=
  t <- getT ;;
  let res := PlainClone w (runDir t) (Repo t) in
  emit (EvClone (runDir t) (Repo t) res) ;;;
  check res (Errorf "failed to clone repo").

(** [e2eTestArgs] of [Test]. *)
Definition e2eTestArgs (t : Tester) : list string :=
  [ "--kubeconfig=" ++ kubeconfigPath t;
    "--ginkgo.skip=" ++ SkipRegex t;
    "--ginkgo.focus=" ++ FocusRegex t;
    "--report-dir=" ++ BaseDir w;
    "--ginkgo.timeout=" ++ GoStd.Duration_String (Timeout t) ].

(** [ginkgoArgs] of [Test], from the words of [--ginkgo-args]. *)
Definition ginkgoArgs (t : Tester) (extraGingkoArgs : list string)
  : list string :=
  app (app extraGingkoArgs
         [ "--nodes=" ++ GoStd.Itoa (Parallel t); e2eTestPath t; "--" ])
      (e2eTestArgs t).

(** [func (t *Tester) Test() error]. *)
Definition Test : M unit :=
  let res := WriteVersionToMetadata w (GitTag w) in
  emit (EvWriteVersion (GitTag w) res) ;;;
  check res (fun err => err) ;;;
  pretestSetup ;;;
  t <- getT ;;
  (if String.eqb (kubeconfigPath t) "" then
     match LookupEnv w "KUBECONFIG" with
     | Some kubeconfig => modifyT (set_kubeconfigPath kubeconfig)
     | None => fail "kubeconfig path not provided"
     end
   else ret tt) ;;;
  t <- getT ;;
  match shellquote.Split (GinkgoArgs t) with
  | inl err => fail (Errorf "error parsing --gingko-args" err)
  | inr extraGingkoArgs =>
      let args := ginkgoArgs t extraGingkoArgs in
      emit (EvInfo ("Running ginkgo test as " ++ ginkgoPath t ++ " "
                      ++ fmt_strings args)) ;;;
      let res := Run w (ginkgoPath t) args (Env t) in
      emit (EvRun (ginkgoPath t) args (Env t) res) ;;;
      check res (fun err => err)
  end.

(** [func (t *Tester) initKubetest2Info() error]. *)
Definition initKubetest2Info : M unit :=
  match LookupEnv w "KUBETEST2_RUN_DIR" with
  | Some dir => modifyT (set_runDir dir)
  | None =>
      match Getwd w with
      | inl err => fail (Errorf "failed to set run dir" err)
      | inr dir => modifyT (set_runDir dir)
      end
  end.

(** [func (t *Tester) Execute() error]. *)
Definition Execute : M unit :=
  check (gpflag_Parse w) (Errorf "failed to initialize tester") ;;;
  modifyT (fun t => fold_left apply_write (writes (fs_Parse w)) t) ;;;
  match status (fs_Parse w) with
  | inl err => fail (Errorf "failed to parse flags" err)
  | inr help =>
      if help then emit (EvPrintDefaults Stdout)
      else initKubetest2Info ;;; Test
  end.

(** [func Main()], with the status the process exits with: [klog.Fatalf]
    logs and exits with 255. *)
Definition Main : Z * State :=
  match Execute {| tester := NewDefaultTester; trace := [] |} with
  | (inr _, s) => (0, s)
  | (inl err, s) =>
      (255, {| tester := tester s;
               trace := (trace s
                  ++ [EvFatal ("failed to run ginkgo tester: " ++ err)])%list |})
  end.

End Methods.

(** Running a method on a tester, with an empty trace. *)
Definition run {A} (m : M A) (t : Tester) : (error + A) * State :=
  m {| tester := t; trace := [] |}.

Definition result {A} (o : (error + A) * State) : error + A := fst o.
Definition final {A} (o : (error + A) * State) : Tester := tester (snd o).
Definition events {A} (o : (error + A) * State) : list Event := trace (snd o).

(** The spec's names for the errors of [Test]. *)
Definition CloneError (underlying e : error) : Prop :=
  e = "failed to clone repo: " ++ underlying.

Definition is_run (e : Event) : bool :=
  match e with EvRun _ _ _ _ => true | _ => false end.
Definition is_clone (e : Event) : bool :=
  match e with EvClone _ _ _ => true | _ => false end.

(** No child process was started. *)
Definition no_subprocess (tr : list Event) : Prop :=
  filter is_run tr = [].

(** The kubeconfig path [Test] goes on with: the configured one, or the
    value of [KUBECONFIG] when none is configured. *)
Definition resolvedKubeconfig (w : World) (t : Tester) : option string :=
  if String.eqb (kubeconfigPath t) "" then LookupEnv w "KUBECONFIG"
  else Some (kubeconfigPath t).

(** Steps of [Test] before the split of [GinkgoArgs]. *)
Definition metadata_and_clone_succeed (w : World) (t : Tester) : Prop :=
  WriteVersionToMetadata w (GitTag w) = None
  /\ PlainClone w (runDir t) (Repo t) = None.

(** [cmd.Run()]'s error is returned as it is. *)
Definition run_result (res : nilable_error) : error + unit :=
  match res with
  | Some err => inl err
  | None => inr tt
  end.

(** The five ways through [Test], each with what it returns, the tester it
    leaves and the events it adds. *)
Inductive TestOutcome (w : World) (t : Tester)
  : (error + unit) * State -> Prop :=
| TestMetadataFails err :
    WriteVersionToMetadata w (GitTag w) = Some err ->
    TestOutcome w t
      (inl err,
       {| tester := t; trace := [EvWriteVersion (GitTag w) (Some err)] |})
| TestCloneFails err :
    WriteVersionToMetadata w (GitTag w) = None ->
    PlainClone w (runDir t) (Repo t) = Some err ->
    TestOutcome w t
      (inl ("failed to clone repo: " ++ err),
       {| tester := t;
          trace := [EvWriteVersion (GitTag w) None;
                    EvClone (runDir t) (Repo t) (Some err)] |})
| TestNoKubeconfig :
    metadata_and_clone_succeed w t ->
    resolvedKubeconfig w t = None ->
    TestOutcome w t
      (inl "kubeconfig path not provided",
       {| tester := t;
          trace := [EvWriteVersion (GitTag w) None;
                    EvClone (runDir t) (Repo t) None] |})
| TestSplitFails kubeconfig err :
    metadata_and_clone_succeed w t ->
    resolvedKubeconfig w t = Some kubeconfig ->
    shellquote.Split (GinkgoArgs t) = inl err ->
    TestOutcome w t
      (inl ("error parsing --gingko-args: " ++ err),
       {| tester := set_kubeconfigPath kubeconfig t;
          trace := [EvWriteVersion (GitTag w) None;
                    EvClone (runDir t) (Repo t) None] |})
| TestRuns kubeconfig words :
    metadata_and_clone_succeed w t ->
    resolvedKubeconfig w t = Some kubeconfig ->
    shellquote.Split (GinkgoArgs t) = inr words ->
    let args := ginkgoArgs w (set_kubeconfigPath kubeconfig t) words in
    let res := Run w (ginkgoPath t) args (Env t) in
    TestOutcome w t
      (run_result res,
       {| tester := set_kubeconfigPath kubeconfig t;
          trace := [EvWriteVersion (GitTag w) None;
                    EvClone (runDir t) (Repo t) None;
                    EvInfo ("Running ginkgo test as " ++ ginkgoPath t ++ " "
                              ++ fmt_strings args);
                    EvRun (ginkgoPath t) args (Env t) res] |}).

(** A world in which every step succeeds: both environment variables are
    set, the clone and the child process succeed, no flag is given. *)
Definition quiet_world : World :=
  {| GitTag := "v0.1.0";
     gpflag_Parse := None;
     fs_Parse := {| writes := []; status := inr false |};
     LookupEnv := fun k =>
       if String.eqb k "KUBECONFIG" then Some "/home/ci/.kube/config"
       else if String.eqb k "KUBETEST2_RUN_DIR" then Some "/tmp/run"
       else None;
     Getwd := inr "/work";
     WriteVersionToMetadata := fun _ => None;
     PlainClone := fun _ _ => None;
     BaseDir := "/artifacts";
     Run := fun _ _ _ => None |}.

Definition with_fs_Parse (p : ParseOutcome) (w : World) : World :=
  {| GitTag := GitTag w; gpflag_Parse := gpflag_Parse w; fs_Parse := p;
     LookupEnv := LookupEnv w; Getwd := Getwd w;
     WriteVersionToMetadata := WriteVersionToMetadata w;
     PlainClone := PlainClone w; BaseDir := BaseDir w; Run := Run w |}.

Definition with_LookupEnv (f : string -> option string) (w : World) : World :=
  {| GitTag := GitTag w; gpflag_Parse := gpflag_Parse w;
     fs_Parse := fs_Parse w; LookupEnv := f; Getwd := Getwd w;
     WriteVersionToMetadata := WriteVersionToMetadata w;
     PlainClone := PlainClone w; BaseDir := BaseDir w; Run := Run w |}.

Definition with_PlainClone (f : string -> string -> nilable_error)
           (w : World) : World :=
  {| GitTag := GitTag w; gpflag_Parse := gpflag_Parse w;
     fs_Parse := fs_Parse w; LookupEnv := LookupEnv w; Getwd := Getwd w;
     WriteVersionToMetadata := WriteVersionToMetadata w;
     PlainClone := f; BaseDir := BaseDir w; Run := Run w |}.

(** No [KUBECONFIG] in the environment. *)
Definition no_KUBECONFIG (k : string) : option string :=
  if String.eqb k "KUBETEST2_RUN_DIR" then Some "/tmp/run" else None.

(** A remote that cannot be reached. *)
Definition unreachable (path url : string) : nilable_error :=
  Some "repository not found".

(** The tester after [--parallel=4 --ginkgo-args=--nodes=4 --repo=...] and
    the run-directory resolution of [quiet_world]. *)
Definition tester_nodes_twice : Tester :=
  set_runDir "/tmp/run"
    (fold_left apply_write
       [WParallel 4; WGinkgoArgs "--nodes=4"; WRepo "https://example.org/e2e.git"]
       NewDefaultTester).

(** The tester after [--ginkgo-args='unterminated]. *)
Definition tester_unterminated : Tester :=
  set_runDir "/tmp/run"
    (fold_left apply_write [WGinkgoArgs "'unterminated"] NewDefaultTester).

(** The tester as flag parsing leaves it. *)
Definition parsed (w : World) (t : Tester) : Tester :=
  fold_left apply_write (writes (fs_Parse w)) t.

(** The directory [initKubetest2Info] settles on. *)
Definition resolvedRunDir (w : World) : error + string :=
  match LookupEnv w "KUBETEST2_RUN_DIR" with
  | Some dir => inr dir
  | None => Getwd w
  end.

(** The ways through [Execute]. *)
Inductive ExecuteOutcome (w : World) (t : Tester)
  : (error + unit) * State -> Prop :=
| ExecuteInitFails err :
    gpflag_Parse w = Some err ->
    ExecuteOutcome w t
      (inl ("failed to initialize tester: " ++ err),
       {| tester := t; trace := [] |})
| ExecuteParseFails err :
    gpflag_Parse w = None ->
    status (fs_Parse w) = inl err ->
    ExecuteOutcome w t
      (inl ("failed to parse flags: " ++ err),
       {| tester := parsed w t; trace := [] |})
| ExecuteHelp :
    gpflag_Parse w = None ->
    status (fs_Parse w) = inr true ->
    ExecuteOutcome w t
      (inr tt, {| tester := parsed w t; trace := [EvPrintDefaults Stdout] |})
| ExecuteNoRunDir err :
    gpflag_Parse w = None ->
    status (fs_Parse w) = inr false ->
    resolvedRunDir w = inl err ->
    ExecuteOutcome w t
      (inl ("failed to set run dir: " ++ err),
       {| tester := parsed w t; trace := [] |})
| ExecuteTests dir :
    gpflag_Parse w = None ->
    status (fs_Parse w) = inr false ->
    resolvedRunDir w = inr dir ->
    ExecuteOutcome w t (run (Test w) (set_runDir dir (parsed w t))).

(** What [Execute] does once the flags are parsed and [*help] is unset. *)
Definition after_parsing (w : World) : M unit :=
  initKubetest2Info w ;;; Test w.


(** Equal in every field but [runDir] and [kubeconfigPath]. *)
Definition same_but_resolved_paths (t1 t2 : Tester) : Prop :=
  FlakeAttempts t1 = FlakeAttempts t2
  /\ GinkgoArgs t1 = GinkgoArgs t2
  /\ Parallel t1 = Parallel t2
  /\ SkipRegex t1 = SkipRegex t2
  /\ FocusRegex t1 = FocusRegex t2
  /\ Timeout t1 = Timeout t2
  /\ Env t1 = Env t2
  /\ Repo t1 = Repo t2
  /\ e2eTestPath t1 = e2eTestPath t2
  /\ ginkgoPath t1 = ginkgoPath t2
  /\ kubectlPath t1 = kubectlPath t2.

(** Equal in every field but [FlakeAttempts]. *)
Definition same_except_FlakeAttempts (t1 t2 : Tester) : Prop :=
  GinkgoArgs t1 = GinkgoArgs t2
  /\ Parallel t1 = Parallel t2
  /\ SkipRegex t1 = SkipRegex t2
  /\ FocusRegex t1 = FocusRegex t2
  /\ Timeout t1 = Timeout t2
  /\ Env t1 = Env t2
  /\ Repo t1 = Repo t2
  /\ kubeconfigPath t1 = kubeconfigPath t2
  /\ runDir t1 = runDir t2
  /\ e2eTestPath t1 = e2eTestPath t2
  /\ ginkgoPath t1 = ginkgoPath t2
  /\ kubectlPath t1 = kubectlPath t2.

(** The tester after [--ginkgo-args="--foo bar --baz 'qux quux'"
    --parallel=4 --repo=...] and the run-directory resolution of
    [quiet_world]. *)
Definition tester_quoted : Tester :=
  set_runDir "/tmp/run"
    (fold_left apply_write
       [WGinkgoArgs "--foo bar --baz 'qux quux'"; WParallel 4;
        WRepo "https://example.org/e2e.git"]
       NewDefaultTester).

Definition args_quoted : list string :=
  [ "--foo"; "bar"; "--baz"; "qux quux";
    "--nodes=4"; ""; "--";
    "--kubeconfig=/home/ci/.kube/config";
    "--ginkgo.skip="; "--ginkgo.focus=";
    "--report-dir=/artifacts"; "--ginkgo.timeout=24h0m0s" ].

Definition args_nodes_twice : list string :=
  [ "--nodes=4";
    "--nodes=4"; ""; "--";
    "--kubeconfig=/home/ci/.kube/config";
    "--ginkgo.skip="; "--ginkgo.focus=";
    "--report-dir=/artifacts"; "--ginkgo.timeout=24h0m0s" ].

(** [quiet_world] without [KUBECONFIG]. *)
Definition world_no_kubeconfig : World :=
  with_LookupEnv no_KUBECONFIG quiet_world.


(** [quiet_world] with a remote that cannot be reached. *)
Definition world_no_remote : World :=
  with_PlainClone unreachable quiet_world.

(** The default tester after the run-directory resolution of
    [quiet_world]. *)
Definition tester_default : Tester :=
  set_runDir "/tmp/run" NewDefaultTester.




Definition args_default : list string :=
  [ "--nodes=1"; ""; "--";
    "--kubeconfig=/home/ci/.kube/config";
    "--ginkgo.skip="; "--ginkgo.focus=";
    "--report-dir=/artifacts"; "--ginkgo.timeout=24h0m0s" ].

(* ================================================================= *)
(** ** Further worlds and predicates *)

Definition with_Getwd (r : error + string) (w : World) : World :=
  {| GitTag := GitTag w; gpflag_Parse := gpflag_Parse w;
     fs_Parse := fs_Parse w; LookupEnv := LookupEnv w; Getwd := r;
     WriteVersionToMetadata := WriteVersionToMetadata w;
     PlainClone := PlainClone w; BaseDir := BaseDir w; Run := Run w |}.

Definition with_Run
    (f : string -> list string -> list string -> nilable_error)
    (w : World) : World :=
  {| GitTag := GitTag w; gpflag_Parse := gpflag_Parse w;
     fs_Parse := fs_Parse w; LookupEnv := LookupEnv w; Getwd := Getwd w;
     WriteVersionToMetadata := WriteVersionToMetadata w;
     PlainClone := PlainClone w; BaseDir := BaseDir w; Run := f |}.

(** [quiet_world] with [KUBETEST2_RUN_DIR] unset: only [KUBECONFIG] is in
    the environment. *)
Definition world_cwd : World :=
  with_LookupEnv
    (fun k => if String.eqb k "KUBECONFIG" then Some "/home/ci/.kube/config"
              else None)
    quiet_world.

(** An empty environment and no working directory. *)
Definition world_no_cwd : World :=
  with_Getwd (inl "getwd: no such file or directory")
    (with_LookupEnv (fun _ => None) quiet_world).

(** [quiet_world] with a child process that exits with status 1. *)
Definition world_child_fails : World :=
  with_Run (fun _ _ _ => Some "exit status 1") quiet_world.

(** [quiet_world] with [--flake-attempts=5] on the command line. *)
Definition world_flaky : World :=
  with_fs_Parse {| writes := [WFlakeAttempts 5]; status := inr false |}
    quiet_world.

(** The characters the word splitter treats as quoting. *)
Definition isQuoting (c : ascii) : bool :=
  Ascii.eqb c shellquote.singleChar || Ascii.eqb c shellquote.doubleChar
  || Ascii.eqb c shellquote.escapeChar.

Fixpoint all_chars (p : ascii -> bool) (s : string) : bool :=
  match s with
  | "" => true
  | String c s' => p c && all_chars p s'
  end.

(** No quote and no backslash. *)
Definition plain (s : string) : bool :=
  all_chars (fun c => negb (isQuoting c)) s.

(** Only spaces, tabs and newlines. *)
Definition blank (s : string) : bool :=
  all_chars shellquote.isSplitChar s.

(** Not empty, and free of spaces, tabs and newlines. *)
Definition solid (s : string) : Prop :=
  s <> "" /\ all_chars (fun c => negb (shellquote.isSplitChar c)) s = true.

(** The number a string of decimal digits stands for. *)
Fixpoint digits_value (s : string) : N :=
  match s with
  | "" => 0%N
  | String c s' =>
      ((N_of_ascii c - 48) * 10 ^ N.of_nat (String.length s')
       + digits_value s')%N
  end.

(** Starts with a decimal digit. *)
Definition starts_with_digit (s : string) : Prop :=
  exists d s', (d < 10)%N /\ s = String (GoStd.digit d) s'.

(* ================================================================= *)
(** * Properties *)

(* ================================================================= *)
(** ** The library routines *)

Example Itoa_examples :
  GoStd.Itoa 4 = "4" /\ GoStd.Itoa 0 = "0" /\ GoStd.Itoa (-120) = "-120"
  /\ GoStd.Itoa 9223372036854775807 = "9223372036854775807"
  /\ GoStd.Itoa (-9223372036854775808) = "-9223372036854775808".
Proof. repeat split. Qed.

Example Duration_String_examples :
  GoStd.Duration_String (24 * GoStd.Hour) = "24h0m0s"
  /\ GoStd.Duration_String 0 = "0s"
  /\ GoStd.Duration_String 999 = "999ns"
  /\ GoStd.Duration_String 1500 = "1.5" ++ GoStd.micro ++ "s"
  /\ GoStd.Duration_String 1500000 = "1.5ms"
  /\ GoStd.Duration_String GoStd.Second = "1s"
  /\ GoStd.Duration_String (61 * GoStd.Second) = "1m1s"
  /\ GoStd.Duration_String (-90061000000001) = "-25h1m1.000000001s".
Proof. repeat split. Qed.

Example Split_examples :
  shellquote.Split "" = inr []
  /\ shellquote.Split "  a   b " = inr ["a"; "b"]
  /\ shellquote.Split "a\ b '' x'y z'w" = inr ["a b"; ""; "xy zw"]
  /\ shellquote.Split "a\" = inl shellquote.UnterminatedEscapeError
  /\ shellquote.Split "--nodes=4" = inr ["--nodes=4"].
Proof. repeat split. Qed.

Lemma div10_lt_pow2 (f : nat) (v : N) :
  (v < 2 ^ N.of_nat (S f))%N -> (v / 10 < 2 ^ N.of_nat f)%N.
Proof.
  intro Hv.
  rewrite Nat2N.inj_succ, N.pow_succ_r' in Hv.
  apply N.Div0.div_lt_upper_bound. lia.
Qed.

(** The loop of [fmtInt] ends before its fuel does: more fuel prints the
    same digits. *)
Lemma fmtInt_loop_fuel (fuel : nat) :
  forall (v : N) (buf : string) (extra : nat),
    (v < 2 ^ N.of_nat fuel)%N ->
    GoStd.fmtInt_loop (fuel + extra) v buf = GoStd.fmtInt_loop fuel v buf.
Proof.
  induction fuel as [|f IH]; intros v buf extra Hv.
  - assert (v = 0%N) by (cbn in Hv; lia). subst v.
    destruct extra; reflexivity.
  - cbn [Nat.add GoStd.fmtInt_loop].
    destruct (v =? 0)%N; [reflexivity|].
    apply IH. now apply div10_lt_pow2.
Qed.

(** [fmtInt] gives its loop enough fuel. *)
Lemma fmtInt_fuel (v : N) (buf : string) (extra : nat) :
  v <> 0%N ->
  GoStd.fmtInt_loop (N.to_nat (N.size v) + extra) v buf = GoStd.fmtInt v buf.
Proof.
  intro Hv. unfold GoStd.fmtInt.
  destruct (N.eqb_spec v 0); [contradiction|].
  apply fmtInt_loop_fuel. rewrite N2Nat.id. apply N.size_gt.
Qed.

(* ================================================================= *)
(** ** The ways through [Test] and [Execute] *)

Lemma set_kubeconfigPath_same (t : Tester) :
  set_kubeconfigPath (kubeconfigPath t) t = t.
Proof. destruct t; reflexivity. Qed.

(** [Test] on a tester takes one of the five ways. *)
Lemma Test_outcome (w : World) (t : Tester) :
  TestOutcome w t (run (Test w) t).
Proof.
  unfold run, Test, pretestSetup, bind, check, emit, modifyT, getT, ret, fail,
    Errorf; cbn [tester trace app].
  destruct (WriteVersionToMetadata w (GitTag w)) as [e|] eqn:Hwv;
    cbn [tester trace app].
  { now apply TestMetadataFails. }
  destruct (PlainClone w (runDir t) (Repo t)) as [e|] eqn:Hclone;
    cbn [tester trace app].
  { now apply TestCloneFails. }
  assert (Hok : metadata_and_clone_succeed w t) by (split; assumption).
  destruct (kubeconfigPath t =? "")%string eqn:Hkc.
  - destruct (LookupEnv w "KUBECONFIG") as [kc|] eqn:Henv;
      cbn [tester trace app].
    + assert (Hres : resolvedKubeconfig w t = Some kc)
        by (unfold resolvedKubeconfig; now rewrite Hkc).
      change (GinkgoArgs (set_kubeconfigPath kc t)) with (GinkgoArgs t).
      destruct (shellquote.Split (GinkgoArgs t)) as [e|words] eqn:Hsplit;
        cbn [tester trace app].
      * now apply TestSplitFails.
      * pose proof (TestRuns w t kc words Hok Hres Hsplit) as H.
        cbv zeta in H.
        destruct (Run w _ _ _); exact H.
    + apply TestNoKubeconfig; [assumption|].
      unfold resolvedKubeconfig; now rewrite Hkc.
  - cbn [tester trace app].
    assert (Hres : resolvedKubeconfig w t = Some (kubeconfigPath t))
      by (unfold resolvedKubeconfig; now rewrite Hkc).
    destruct (shellquote.Split (GinkgoArgs t)) as [e|words] eqn:Hsplit;
      cbn [tester trace app].
    * pose proof (TestSplitFails w t _ e Hok Hres Hsplit) as H.
      rewrite set_kubeconfigPath_same in H. exact H.
    * pose proof (TestRuns w t _ words Hok Hres Hsplit) as H.
      cbv zeta in H. rewrite set_kubeconfigPath_same in H.
      destruct (Run w _ _ _); exact H.
Qed.

Ltac by_Test_outcome w t :=
  let H := fresh "Hout" in
  pose proof (Test_outcome w t) as H;
  inversion H; clear H;
  repeat match goal with x := _ |- _ => subst x end;
  match goal with
  | E : _ = run (Test w) t |- _ => try rewrite <- E in *; clear E
  end;
  unfold events, result, final, no_subprocess in *; cbn [fst snd tester trace] in *.

Ltac no_such_event H :=
  cbn [In] in H;
  repeat (destruct H as [H|H]; [discriminate H|]);
  try contradiction.

(** The only [EvRun] of [Test]: which program, which arguments, which
    environment. *)
Lemma Test_run_event
    (w : World) (t : Tester)
    (path : string) (args env : list string) (res : nilable_error) :
  In (EvRun path args env res) (events (run (Test w) t)) ->
  exists kubeconfig words,
    metadata_and_clone_succeed w t
    /\ resolvedKubeconfig w t = Some kubeconfig
    /\ shellquote.Split (GinkgoArgs t) = inr words
    /\ path = ginkgoPath t
    /\ env = Env t
    /\ res = Run w path args env
    /\ args =
       app words
        [ "--nodes=" ++ GoStd.Itoa (Parallel t);
          e2eTestPath t;
          "--";
          "--kubeconfig=" ++ kubeconfig;
          "--ginkgo.skip=" ++ SkipRegex t;
          "--ginkgo.focus=" ++ FocusRegex t;
          "--report-dir=" ++ BaseDir w;
          "--ginkgo.timeout=" ++ GoStd.Duration_String (Timeout t) ].
Proof.
  intros Hin.
  by_Test_outcome w t; try (no_such_event Hin; fail).
  cbn [In] in Hin.
  do 3 (destruct Hin as [Hin|Hin]; [discriminate Hin|]).
  destruct Hin as [Hin|[]].
  inversion Hin; subst.
  exists kubeconfig, words. repeat (split; [first [assumption|reflexivity]|]).
  unfold ginkgoArgs, e2eTestArgs. rewrite <- app_assoc. reflexivity.
Qed.

(** When every step before it succeeds, [Test] starts the child process
    and returns what [cmd.Run] returns. *)
Lemma Test_starts_child
    (w : World) (t : Tester) (kubeconfig : string) (words : list string) :
  metadata_and_clone_succeed w t ->
  resolvedKubeconfig w t = Some kubeconfig ->
  shellquote.Split (GinkgoArgs t) = inr words ->
  filter is_run (events (run (Test w) t))
  = [EvRun (ginkgoPath t)
       (ginkgoArgs w (set_kubeconfigPath kubeconfig t) words) (Env t)
       (Run w (ginkgoPath t)
          (ginkgoArgs w (set_kubeconfigPath kubeconfig t) words) (Env t))]
  /\ result (run (Test w) t)
     = run_result
         (Run w (ginkgoPath t)
            (ginkgoArgs w (set_kubeconfigPath kubeconfig t) words) (Env t)).
Proof.
  intros [Hwv Hcl] Hres Hsplit.
  by_Test_outcome w t;
    repeat match goal with
    | H : metadata_and_clone_succeed _ _ |- _ => destruct H
    end;
    try congruence.
  replace kubeconfig0 with kubeconfig by congruence.
  replace words0 with words by congruence.
  split; reflexivity.
Qed.

(** [Test] leaves the tester as it was or with the kubeconfig path taken
    from the environment. *)
Lemma Test_final (w : World) (t : Tester) :
  final (run (Test w) t) = t
  \/ exists kubeconfig,
       resolvedKubeconfig w t = Some kubeconfig
       /\ final (run (Test w) t) = set_kubeconfigPath kubeconfig t.
Proof.
  by_Test_outcome w t; auto; right; exists kubeconfig; auto.
Qed.


Lemma Test_same_but_resolved_paths (w : World) (t : Tester) :
  same_but_resolved_paths (final (run (Test w) t)) t.
Proof.
  destruct (Test_final w t) as [->|(kc & _ & ->)]; repeat split.
Qed.

Lemma Execute_outcome (w : World) (t : Tester) :
  ExecuteOutcome w t (run (Execute w) t).
Proof.
  unfold run, Execute, initKubetest2Info, bind, check, modifyT, emit, ret,
    fail, Errorf; cbn [tester trace app].
  destruct (gpflag_Parse w) as [e|] eqn:Hinit; cbn [tester trace app].
  { now apply ExecuteInitFails. }
  fold (parsed w t).
  destruct (status (fs_Parse w)) as [e|[|]] eqn:Hst; cbn [tester trace app].
  - now apply ExecuteParseFails.
  - now apply ExecuteHelp.
  - destruct (resolvedRunDir w) as [e|dir] eqn:Hdir;
      unfold resolvedRunDir in Hdir;
      destruct (LookupEnv w "KUBETEST2_RUN_DIR") as [d|] eqn:Henv.
    + discriminate.
    + rewrite Hdir. cbn [tester trace app].
      apply ExecuteNoRunDir; try assumption.
      unfold resolvedRunDir; now rewrite Henv.
    + inversion Hdir; subst. cbn [tester trace app].
      apply (ExecuteTests w t dir); try assumption.
      unfold resolvedRunDir; now rewrite Henv.
    + rewrite Hdir. cbn [tester trace app].
      apply (ExecuteTests w t dir); try assumption.
      unfold resolvedRunDir; now rewrite Henv.
Qed.

Ltac by_Execute_outcome w t :=
  let H := fresh "Hout" in
  pose proof (Execute_outcome w t) as H;
  inversion H; clear H;
  match goal with
  | E : _ = run (Execute w) t |- _ => try rewrite <- E in *; clear E
  end.

Lemma after_parsing_run (w : World) (t : Tester) :
  run (after_parsing w) t
  = match resolvedRunDir w with
    | inl err => (inl ("failed to set run dir: " ++ err),
                  {| tester := t; trace := [] |})
    | inr dir => run (Test w) (set_runDir dir t)
    end.
Proof.
  unfold after_parsing, run, initKubetest2Info, resolvedRunDir, bind,
    modifyT, fail, Errorf; cbn [tester trace].
  destruct (LookupEnv w "KUBETEST2_RUN_DIR"); [reflexivity|].
  destruct (Getwd w); reflexivity.
Qed.

(** Flag parsing writes exported fields only. *)
Lemma parsed_unexported (w : World) (t : Tester) :
  kubeconfigPath (parsed w t) = kubeconfigPath t
  /\ runDir (parsed w t) = runDir t
  /\ e2eTestPath (parsed w t) = e2eTestPath t
  /\ ginkgoPath (parsed w t) = ginkgoPath t
  /\ kubectlPath (parsed w t) = kubectlPath t.
Proof.
  unfold parsed. generalize (writes (fs_Parse w)) t.
  induction l as [|f l IH]; intro t0; [repeat split|].
  cbn [fold_left].
  destruct (IH (apply_write t0 f)) as (-> & -> & -> & -> & ->).
  destruct f; repeat split.
Qed.

Lemma Main_tester (w : World) :
  tester (snd (Main w)) = final (run (Execute w) NewDefaultTester).
Proof.
  unfold Main, final, run.
  destruct (Execute w _) as [[e|u] s]; reflexivity.
Qed.

Lemma Main_run_event (w : World) (e : Event) :
  is_run e = true ->
  In e (trace (snd (Main w))) ->
  In e (events (run (Execute w) NewDefaultTester)).
Proof.
  unfold Main, events, run.
  destruct (Execute w _) as [[err|u] s]; cbn [snd trace]; intros Hr Hin;
    [|assumption].
  apply in_app_or in Hin. destruct Hin as [Hin|[Hin|[]]]; [assumption|].
  subst e. discriminate Hr.
Qed.

(** [Execute] returns what the child process returns as soon as flag
    parsing, run-directory resolution, the metadata write, the clone, the
    kubeconfig resolution and the split succeed: the values of the
    configuration are not looked at. *)
Lemma Execute_runs_child
    (w : World) (t : Tester) (dir kubeconfig : string)
    (words : list string) :
  gpflag_Parse w = None ->
  status (fs_Parse w) = inr false ->
  resolvedRunDir w = inr dir ->
  metadata_and_clone_succeed w (set_runDir dir (parsed w t)) ->
  resolvedKubeconfig w (set_runDir dir (parsed w t)) = Some kubeconfig ->
  shellquote.Split (GinkgoArgs (parsed w t)) = inr words ->
  result (run (Execute w) t)
  = run_result
      (Run w (ginkgoPath (parsed w t))
         (ginkgoArgs w
            (set_kubeconfigPath kubeconfig (set_runDir dir (parsed w t)))
            words)
         (Env (parsed w t))).
Proof.
  intros Hinit Hst Hdir Hok Hres Hsplit.
  by_Execute_outcome w t; try congruence.
  replace dir0 with dir by congruence.
  apply (Test_starts_child w (set_runDir dir (parsed w t)) kubeconfig words);
    assumption.
Qed.

(** What [Execute] leaves in the tester. *)
Lemma Execute_final (w : World) (t : Tester) :
  final (run (Execute w) t) = t
  \/ final (run (Execute w) t) = parsed w t
  \/ exists dir,
       resolvedRunDir w = inr dir
       /\ final (run (Execute w) t)
          = final (run (Test w) (set_runDir dir (parsed w t))).
Proof.
  by_Execute_outcome w t; auto.
  right; right. exists dir. auto.
Qed.

(** Nothing assigns the runner and suite paths. *)
Lemma Execute_paths (w : World) (t : Tester) :
  ginkgoPath (final (run (Execute w) t)) = ginkgoPath t
  /\ e2eTestPath (final (run (Execute w) t)) = e2eTestPath t.
Proof.
  destruct (parsed_unexported w t) as (_ & _ & He & Hg & _).
  destruct (Execute_final w t) as [->|[->|(dir & _ & ->)]]; auto.
  destruct (Test_same_but_resolved_paths w (set_runDir dir (parsed w t)))
    as (_ & _ & _ & _ & _ & _ & _ & _ & -> & -> & _).
  auto.
Qed.

(* ================================================================= *)
(** ** Command assembly *)

(** C1: whenever the words of [GinkgoArgs] split without error, the
    argument vector [Test] hands to the child process is these words in
    order, then [--nodes=<Parallel>], then the suite binary path, then [--],
    then the kubeconfig, skip, focus, report-directory and timeout flags in
    this order, the timeout printed by [Duration.String]. *)
Theorem Test_argument_vector_order
    (w : World) (t : Tester) (words : list string)
    (path : string) (args env : list string) (res : nilable_error) :
  shellquote.Split (GinkgoArgs t) = inr words ->
  In (EvRun path args env res) (events (run (Test w) t)) ->
  exists kubeconfig,
    resolvedKubeconfig w t = Some kubeconfig
    /\ args =
       app words
        [ "--nodes=" ++ GoStd.Itoa (Parallel t);
          e2eTestPath t;
          "--";
          "--kubeconfig=" ++ kubeconfig;
          "--ginkgo.skip=" ++ SkipRegex t;
          "--ginkgo.focus=" ++ FocusRegex t;
          "--report-dir=" ++ BaseDir w;
          "--ginkgo.timeout=" ++ GoStd.Duration_String (Timeout t) ].
Proof.
  intros Hw Hin.
  destruct (Test_run_event w t path args env res Hin)
    as (kc & words' & _ & Hres & Hsplit & _ & _ & _ & Hargs).
  assert (words' = words) by congruence; subst words'.
  exists kc. split; assumption.
Qed.

Lemma Test_argument_vector_order_witness :
  shellquote.Split (GinkgoArgs tester_quoted)
  = inr ["--foo"; "bar"; "--baz"; "qux quux"]
  /\ In (EvRun "" args_quoted [] None)
        (events (run (Test quiet_world) tester_quoted))
  /\ exists kubeconfig,
       resolvedKubeconfig quiet_world tester_quoted = Some kubeconfig
       /\ args_quoted =
          app ["--foo"; "bar"; "--baz"; "qux quux"]
            [ "--nodes=" ++ GoStd.Itoa (Parallel tester_quoted);
              e2eTestPath tester_quoted;
              "--";
              "--kubeconfig=" ++ kubeconfig;
              "--ginkgo.skip=" ++ SkipRegex tester_quoted;
              "--ginkgo.focus=" ++ FocusRegex tester_quoted;
              "--report-dir=" ++ BaseDir quiet_world;
              "--ginkgo.timeout="
                ++ GoStd.Duration_String (Timeout tester_quoted) ].
Proof.
  split; [reflexivity|].
  split; [vm_compute; do 3 right; left; reflexivity|].
  apply (Test_argument_vector_order quiet_world tester_quoted
           ["--foo"; "bar"; "--baz"; "qux quux"] "" args_quoted [] None).
  - reflexivity.
  - vm_compute. do 3 right. left. reflexivity.
Defined.

Ltac count_tokens :=
  cbn [count_occ];
  repeat match goal with
  | |- context [string_dec ?a ?b] =>
      let E := fresh "E" in
      destruct (string_dec a b) as [E|E];
      [ try (cbn in E; discriminate E) | try (exfalso; apply E; reflexivity) ]
  end.

(** C2 (amended): with [Parallel = 4] the argument vector holds the token
    [--nodes=4] once for the parallelism flag and once more for every word
    of the split [GinkgoArgs] equal to it (and for the suite path, were it
    that string); so exactly once when no such word is given and the suite
    path is empty. *)
Theorem nodes_token_count
    (w : World) (t : Tester) (words : list string)
    (path : string) (args env : list string) (res : nilable_error) :
  Parallel t = 4 ->
  shellquote.Split (GinkgoArgs t) = inr words ->
  In (EvRun path args env res) (events (run (Test w) t)) ->
  count_occ string_dec args "--nodes=4"
  = (1 + count_occ string_dec words "--nodes=4"
     + (if string_dec (e2eTestPath t) "--nodes=4" then 1 else 0))%nat
  /\ (~ In "--nodes=4" words -> e2eTestPath t = "" ->
      count_occ string_dec args "--nodes=4" = 1%nat).
Proof.
  intros Hp Hw Hin.
  destruct (Test_run_event w t path args env res Hin)
    as (kc & words' & _ & _ & Hsplit & _ & _ & _ & ->).
  assert (words' = words) by congruence; subst words'.
  rewrite Hp. change (GoStd.Itoa 4) with "4".
  rewrite count_occ_app.
  split.
  - count_tokens; lia.
  - intros Hnot He. rewrite He.
    apply (count_occ_not_In string_dec) in Hnot. rewrite Hnot.
    count_tokens; lia.
Qed.

Lemma nodes_token_count_witness :
  Parallel tester_quoted = 4
  /\ shellquote.Split (GinkgoArgs tester_quoted)
     = inr ["--foo"; "bar"; "--baz"; "qux quux"]
  /\ In (EvRun "" args_quoted [] None)
        (events (run (Test quiet_world) tester_quoted))
  /\ count_occ string_dec args_quoted "--nodes=4"
     = (1 + count_occ string_dec ["--foo"; "bar"; "--baz"; "qux quux"]
              "--nodes=4"
        + (if string_dec (e2eTestPath tester_quoted) "--nodes=4"
           then 1 else 0))%nat
  /\ (~ In "--nodes=4" ["--foo"; "bar"; "--baz"; "qux quux"] ->
      e2eTestPath tester_quoted = "" ->
      count_occ string_dec args_quoted "--nodes=4" = 1%nat).
Proof.
  split; [reflexivity|]. split; [reflexivity|].
  split; [vm_compute; do 3 right; left; reflexivity|].
  apply (nodes_token_count quiet_world tester_quoted
           ["--foo"; "bar"; "--baz"; "qux quux"] "" args_quoted [] None).
  - reflexivity.
  - reflexivity.
  - vm_compute. do 3 right. left. reflexivity.
Defined.

(** C2 fails: with [--parallel=4 --ginkgo-args=--nodes=4] the argument
    vector holds the token [--nodes=4] twice. *)
Lemma nodes_token_twice :
  Parallel tester_nodes_twice = 4
  /\ shellquote.Split (GinkgoArgs tester_nodes_twice) = inr ["--nodes=4"]
  /\ filter is_run (events (run (Test quiet_world) tester_nodes_twice))
     = [EvRun "" args_nodes_twice [] None]
  /\ count_occ string_dec args_nodes_twice "--nodes=4" = 2%nat
  /\ count_occ string_dec args_nodes_twice "--nodes=4" <> 1%nat.
Proof.
  repeat split; try reflexivity. vm_compute. discriminate.
Qed.

(* ================================================================= *)
(** ** The errors of [Test] *)








(** C5: when the clone fails, [pretestSetup] and [Test] return the clone
    error wrapping git's, no child process is started, and the clone was
    tried once. *)
Theorem clone_failure_is_fatal
    (w : World) (t : Tester) (path url : string) (err : error) :
  In (EvClone path url (Some err)) (events (run (Test w) t)) ->
  (exists e, result (run (pretestSetup w) t) = inl e /\ CloneError err e)
  /\ (exists e, result (run (Test w) t) = inl e /\ CloneError err e)
  /\ no_subprocess (events (run (Test w) t))
  /\ List.length (filter is_clone (events (run (Test w) t))) = 1%nat.
Proof.
  intros Hin.
  by_Test_outcome w t; try (no_such_event Hin; fail).
  cbn [In] in Hin.
  destruct Hin as [Hin|Hin]; [discriminate Hin|].
  destruct Hin as [Hin|[]].
  inversion Hin; subst.
  split.
  { unfold run, pretestSetup, bind, getT, emit, check, fail, ret, Errorf.
    cbn [tester trace].
    match goal with
    | Hc : PlainClone w _ _ = Some _ |- _ => rewrite Hc
    end.
    cbn [fst]. eexists; split; reflexivity. }
  split; [eexists; split; reflexivity|].
  split; reflexivity.
Qed.

Lemma clone_failure_is_fatal_witness :
  In (EvClone "/tmp/run" "" (Some "repository not found"))
     (events (run (Test world_no_remote) tester_default))
  /\ (exists e, result (run (pretestSetup world_no_remote) tester_default)
                = inl e
                /\ CloneError "repository not found" e)
  /\ (exists e, result (run (Test world_no_remote) tester_default) = inl e
                /\ CloneError "repository not found" e)
  /\ no_subprocess (events (run (Test world_no_remote) tester_default))
  /\ List.length
       (filter is_clone (events (run (Test world_no_remote) tester_default)))
     = 1%nat.
Proof.
  split; [vm_compute; right; left; reflexivity|].
  apply (clone_failure_is_fatal world_no_remote tester_default
           "/tmp/run" "" "repository not found").
  vm_compute. right. left. reflexivity.
Defined.

(* ================================================================= *)
(** ** The help flag *)



(* ================================================================= *)
(** ** The configuration record *)







Lemma same_except_FlakeAttempts_set (t1 t2 : Tester) :
  same_except_FlakeAttempts t1 t2 ->
  t1 = set_FlakeAttempts (FlakeAttempts t1) t2.
Proof.
  destruct t1, t2; unfold same_except_FlakeAttempts; cbn.
  intros (? & ? & ? & ? & ? & ? & ? & ? & ? & ? & ? & ?); subst.
  reflexivity.
Qed.

Ltac forget_FlakeAttempts n t :=
  cbn [tester trace app fst snd];
  change (runDir (set_FlakeAttempts n t)) with (runDir t);
  change (Repo (set_FlakeAttempts n t)) with (Repo t);
  change (kubeconfigPath (set_FlakeAttempts n t)) with (kubeconfigPath t);
  change (GinkgoArgs (set_FlakeAttempts n t)) with (GinkgoArgs t);
  change (ginkgoPath (set_FlakeAttempts n t)) with (ginkgoPath t);
  change (Env (set_FlakeAttempts n t)) with (Env t).

(** [Test] never reads [FlakeAttempts]: changing it changes nothing but the
    field itself. *)
Lemma Test_set_FlakeAttempts (w : World) (t : Tester) (n : Z) :
  run (Test w) (set_FlakeAttempts n t)
  = (result (run (Test w) t),
     {| tester := set_FlakeAttempts n (final (run (Test w) t));
        trace := events (run (Test w) t) |}).
Proof.
  assert (Hargs : forall kc ws,
    ginkgoArgs w (set_kubeconfigPath kc (set_FlakeAttempts n t)) ws
    = ginkgoArgs w (set_kubeconfigPath kc t) ws) by reflexivity.
  assert (Hargs' : forall ws,
    ginkgoArgs w (set_FlakeAttempts n t) ws = ginkgoArgs w t ws)
    by reflexivity.
  unfold run, result, final, events, Test, pretestSetup, bind, check, emit,
    modifyT, getT, ret, fail, Errorf.
  forget_FlakeAttempts n t.
  destruct (WriteVersionToMetadata w (GitTag w)); [reflexivity|].
  forget_FlakeAttempts n t.
  destruct (PlainClone w (runDir t) (Repo t)); [reflexivity|].
  forget_FlakeAttempts n t.
  destruct (kubeconfigPath t =? "")%string.
  - destruct (LookupEnv w "KUBECONFIG") as [kc|]; [|reflexivity].
    forget_FlakeAttempts n t.
    change (GinkgoArgs (set_kubeconfigPath kc (set_FlakeAttempts n t)))
      with (GinkgoArgs t).
    change (GinkgoArgs (set_kubeconfigPath kc t)) with (GinkgoArgs t).
    destruct (shellquote.Split (GinkgoArgs t)) as [e|ws]; [reflexivity|].
    forget_FlakeAttempts n t.
    change (ginkgoPath (set_kubeconfigPath kc (set_FlakeAttempts n t)))
      with (ginkgoPath t).
    change (ginkgoPath (set_kubeconfigPath kc t)) with (ginkgoPath t).
    change (Env (set_kubeconfigPath kc (set_FlakeAttempts n t)))
      with (Env t).
    change (Env (set_kubeconfigPath kc t)) with (Env t).
    rewrite Hargs.
    destruct (Run w (ginkgoPath t) (ginkgoArgs w (set_kubeconfigPath kc t) ws)
                (Env t)); reflexivity.
  - forget_FlakeAttempts n t.
    destruct (shellquote.Split (GinkgoArgs t)) as [e|ws]; [reflexivity|].
    forget_FlakeAttempts n t.
    rewrite Hargs'.
    destruct (Run w (ginkgoPath t) (ginkgoArgs w t ws) (Env t)); reflexivity.
Qed.

(** C9: two configurations that differ in [FlakeAttempts] only make [Test]
    do the same things (the same events with the same child process,
    arguments and environment) and return the same result. *)
Theorem FlakeAttempts_unobservable (w : World) (t1 t2 : Tester) :
  same_except_FlakeAttempts t1 t2 ->
  events (run (Test w) t1) = events (run (Test w) t2)
  /\ result (run (Test w) t1) = result (run (Test w) t2)
  /\ same_except_FlakeAttempts (final (run (Test w) t1))
                               (final (run (Test w) t2)).
Proof.
  intro Hsame.
  rewrite (same_except_FlakeAttempts_set t1 t2 Hsame).
  rewrite Test_set_FlakeAttempts.
  unfold events, result, final; cbn [fst snd tester trace].
  repeat split.
Qed.

Lemma FlakeAttempts_unobservable_witness :
  same_except_FlakeAttempts tester_default
    (set_FlakeAttempts 3 tester_default)
  /\ events (run (Test quiet_world) tester_default)
     = events (run (Test quiet_world) (set_FlakeAttempts 3 tester_default))
  /\ result (run (Test quiet_world) tester_default)
     = result (run (Test quiet_world) (set_FlakeAttempts 3 tester_default))
  /\ same_except_FlakeAttempts
       (final (run (Test quiet_world) tester_default))
       (final (run (Test quiet_world) (set_FlakeAttempts 3 tester_default))).
Proof.
  assert (H : same_except_FlakeAttempts tester_default
                (set_FlakeAttempts 3 tester_default))
    by (repeat split).
  split; [exact H|].
  apply (FlakeAttempts_unobservable quiet_world _ _ H).
Defined.

(** C10: in a run started by [Main] that reaches the child process, the
    runner path and the suite path are still the empty string: the child
    is started at the empty path and the token after [--nodes=...] is
    empty. *)
Theorem runner_and_suite_paths_stay_empty
    (w : World) (path : string) (args env : list string)
    (res : nilable_error) :
  In (EvRun path args env res) (trace (snd (Main w))) ->
  path = ""
  /\ ginkgoPath (tester (snd (Main w))) = ""
  /\ e2eTestPath (tester (snd (Main w))) = ""
  /\ exists words rest,
       shellquote.Split (GinkgoArgs (tester (snd (Main w)))) = inr words
       /\ args
          = app words
              (app [ "--nodes=" ++ GoStd.Itoa (Parallel (tester (snd (Main w))));
                     ""; "--" ] rest).
Proof.
  intros Hin.
  apply Main_run_event in Hin; [|reflexivity].
  rewrite Main_tester.
  destruct (Execute_paths w NewDefaultTester) as [Hg He].
  cbn [ginkgoPath e2eTestPath NewDefaultTester] in Hg, He.
  destruct (parsed_unexported w NewDefaultTester) as (_ & _ & Hpe & Hpg & _).
  cbn [ginkgoPath e2eTestPath NewDefaultTester] in Hpe, Hpg.
  by_Execute_outcome w NewDefaultTester;
    try (unfold events in Hin; cbn [snd trace In] in Hin;
         repeat (destruct Hin as [Hin|Hin]; [discriminate Hin|]);
         contradiction).
  destruct (Test_run_event w _ path args env res Hin)
    as (kc & words & _ & Hres & Hsplit & Hpath & _ & _ & Hargs).
  change (ginkgoPath (set_runDir dir (parsed w NewDefaultTester)))
    with (ginkgoPath (parsed w NewDefaultTester)) in Hpath.
  change (e2eTestPath (set_runDir dir (parsed w NewDefaultTester)))
    with (e2eTestPath (parsed w NewDefaultTester)) in Hargs.
  rewrite Hpe in Hargs. rewrite Hpg in Hpath.
  destruct (Test_same_but_resolved_paths w
              (set_runDir dir (parsed w NewDefaultTester)))
    as (_ & HG & HP & _).
  rewrite HG, HP.
  repeat (split; [assumption|]).
  exists words. eexists. split; [exact Hsplit|exact Hargs].
Qed.

Lemma runner_and_suite_paths_stay_empty_witness :
  In (EvRun "" args_default [] None) (trace (snd (Main quiet_world)))
  /\ "" = ""
  /\ ginkgoPath (tester (snd (Main quiet_world))) = ""
  /\ e2eTestPath (tester (snd (Main quiet_world))) = ""
  /\ exists words rest,
       shellquote.Split (GinkgoArgs (tester (snd (Main quiet_world))))
       = inr words
       /\ args_default
          = app words
              (app [ "--nodes="
                       ++ GoStd.Itoa (Parallel (tester (snd (Main quiet_world))));
                     ""; "--" ] rest).
Proof.
  assert (H : In (EvRun "" args_default [] None)
                 (trace (snd (Main quiet_world))))
    by (vm_compute; do 3 right; left; reflexivity).
  split; [exact H|].
  apply (runner_and_suite_paths_stay_empty quiet_world "" args_default []
           None H).
Defined.

(* ================================================================= *)
(** ** Order and place of the effects *)

Ltac in_cases H :=
  cbn [In] in H;
  repeat (destruct H as [H|H]);
  try discriminate H; try contradiction;
  try (inversion H; subst; clear H).

(** The clone of [Test]: where, what, and after which metadata write. *)
Lemma Test_clone_event
    (w : World) (t : Tester) (path url : string) (res : nilable_error) :
  In (EvClone path url res) (events (run (Test w) t)) ->
  path = runDir t /\ url = Repo t
  /\ res = PlainClone w (runDir t) (Repo t)
  /\ WriteVersionToMetadata w (GitTag w) = None.
Proof.
  intro Hin.
  by_Test_outcome w t;
    repeat match goal with
    | H : metadata_and_clone_succeed _ _ |- _ => destruct H
    end;
    in_cases Hin; repeat split; congruence.
Qed.

(** What [Test] returns once it has started the child process. *)
Lemma Test_run_event_result
    (w : World) (t : Tester)
    (path : string) (args env : list string) (res : nilable_error) :
  In (EvRun path args env res) (events (run (Test w) t)) ->
  result (run (Test w) t) = run_result res.
Proof.
  intro Hin. by_Test_outcome w t; in_cases Hin. reflexivity.
Qed.

(** Everything [Test] did when it started the child process. *)
Lemma Test_run_trace
    (w : World) (t : Tester)
    (path : string) (args env : list string) (res : nilable_error) :
  In (EvRun path args env res) (events (run (Test w) t)) ->
  events (run (Test w) t)
  = [ EvWriteVersion (GitTag w) None;
      EvClone (runDir t) (Repo t) None;
      EvInfo ("Running ginkgo test as " ++ path ++ " " ++ fmt_strings args);
      EvRun path args env res ].
Proof.
  intro Hin. by_Test_outcome w t; in_cases Hin. reflexivity.
Qed.


(** X5: [Test] begins with the metadata write; a clone comes second, after
    a metadata write that succeeded, and there is one clone at most; the
    child process is started last, after a clone that succeeded and a log
    line that names the program and arguments it is started with. *)
Theorem Test_effects_in_order (w : World) (t : Tester) :
  (exists r tail,
      events (run (Test w) t) = EvWriteVersion (GitTag w) r :: tail)
  /\ (forall p u r,
        In (EvClone p u r) (events (run (Test w) t)) ->
        exists tail,
          events (run (Test w) t)
          = EvWriteVersion (GitTag w) None
              :: EvClone (runDir t) (Repo t) r :: tail
          /\ filter is_clone tail = [])
  /\ (forall p a e r,
        In (EvRun p a e r) (events (run (Test w) t)) ->
        events (run (Test w) t)
        = [ EvWriteVersion (GitTag w) None;
            EvClone (runDir t) (Repo t) None;
            EvInfo ("Running ginkgo test as " ++ p ++ " " ++ fmt_strings a);
            EvRun p a e r ]).
Proof.
  by_Test_outcome w t.
  all: split; [eexists; eexists; reflexivity|].
  all: split; [intros p u r Hin|intros p a e r Hin]; in_cases Hin.
  all: first [reflexivity | eexists; split; reflexivity].
Qed.

(** X1: whatever [Execute] clones, it clones the repository of the parsed
    [--repo] into the run directory: the value of [KUBETEST2_RUN_DIR] when
    that is set, the working directory otherwise. *)
Theorem clone_goes_to_run_dir
    (w : World) (t : Tester) (path url : string) (res : nilable_error) :
  In (EvClone path url res) (events (run (Execute w) t)) ->
  url = Repo (parsed w t)
  /\ res = PlainClone w path url
  /\ match LookupEnv w "KUBETEST2_RUN_DIR" with
     | Some dir => path = dir
     | None => Getwd w = inr path
     end.
Proof.
  intro Hin.
  by_Execute_outcome w t; unfold events in Hin; cbn [snd trace] in Hin;
    try (in_cases Hin; fail).
  fold (events (run (Test w) (set_runDir dir (parsed w t)))) in Hin.
  apply Test_clone_event in Hin.
  destruct Hin as (Hp & Hu & Hr & _).
  cbn [runDir Repo set_runDir] in Hp, Hu, Hr. subst path url.
  split; [reflexivity|]. split; [assumption|].
  match goal with
  | Hd : resolvedRunDir w = inr _ |- _ => unfold resolvedRunDir in Hd
  end.
  destruct (LookupEnv w "KUBETEST2_RUN_DIR"); congruence.
Qed.

Lemma clone_goes_to_run_dir_witness :
  In (EvClone "/work" "" None)
     (events (run (Execute world_cwd) NewDefaultTester))
  /\ "" = Repo (parsed world_cwd NewDefaultTester)
  /\ None = PlainClone world_cwd "/work" ""
  /\ match LookupEnv world_cwd "KUBETEST2_RUN_DIR" with
     | Some dir => "/work" = dir
     | None => Getwd world_cwd = inr "/work"
     end.
Proof.
  assert (H : In (EvClone "/work" "" None)
                 (events (run (Execute world_cwd) NewDefaultTester)))
    by (vm_compute; right; left; reflexivity).
  split; [exact H|].
  apply (clone_goes_to_run_dir world_cwd NewDefaultTester "/work" "" None H).
Defined.


(* ================================================================= *)
(** ** How a run ends *)

(** [Main] in terms of [Execute]. *)
Lemma Main_cases (w : World) :
  (result (run (Execute w) NewDefaultTester) = inr tt
   /\ Main w = (0, snd (run (Execute w) NewDefaultTester)))
  \/ (exists err,
        result (run (Execute w) NewDefaultTester) = inl err
        /\ fst (Main w) = 255
        /\ trace (snd (Main w))
           = (events (run (Execute w) NewDefaultTester)
                ++ [EvFatal ("failed to run ginkgo tester: " ++ err)])%list).
Proof.
  unfold Main, result, events, run.
  destruct (Execute w _) as [[err|[]] s]; cbn [fst snd trace].
  - right. exists err. repeat split.
  - left. split; reflexivity.
Qed.


(** A child-process event of [Execute] decides what [Execute] returns. *)
Lemma Execute_run_event_result
    (w : World) (t : Tester)
    (path : string) (args env : list string) (res : nilable_error) :
  In (EvRun path args env res) (events (run (Execute w) t)) ->
  result (run (Execute w) t) = run_result res.
Proof.
  intro Hin.
  by_Execute_outcome w t; unfold events in Hin; cbn [snd trace] in Hin;
    try (in_cases Hin; fail).
  now apply Test_run_event_result with (path := path) (args := args)
                                       (env := env).
Qed.


(** X4: an error of the child process reaches the fatal log line as it is:
    [Test] and [Execute] return it unwrapped and the process exits with
    255. *)
Theorem child_error_reaches_fatal_log
    (w : World) (path : string) (args env : list string) (err : error) :
  In (EvRun path args env (Some err)) (trace (snd (Main w))) ->
  result (run (Execute w) NewDefaultTester) = inl err
  /\ fst (Main w) = 255
  /\ exists before,
       trace (snd (Main w))
       = (before ++ [EvRun path args env (Some err);
                     EvFatal ("failed to run ginkgo tester: " ++ err)])%list
       /\ filter is_run before = [].
Proof.
  intros Hin.
  apply Main_run_event in Hin; [|reflexivity].
  pose proof (Execute_run_event_result w _ _ _ _ _ Hin) as Hres.
  cbn [run_result] in Hres.
  destruct (Main_cases w) as [[Hres' _]|(e & Hres' & Hcode & Htr)];
    [congruence|].
  assert (e = err) by congruence. subst e.
  split; [assumption|]. split; [assumption|].
  rewrite Htr.
  by_Execute_outcome w NewDefaultTester; unfold events in *;
    cbn [snd trace] in *; try (in_cases Hin; fail).
  pose proof (Test_run_trace w
                (set_runDir dir (parsed w NewDefaultTester)) _ _ _ _ Hin)
    as Hev.
  unfold events in Hev. rewrite Hev.
  exists [ EvWriteVersion (GitTag w) None;
           EvClone dir (Repo (parsed w NewDefaultTester)) None;
           EvInfo ("Running ginkgo test as " ++ path ++ " "
                     ++ fmt_strings args) ].
  split; reflexivity.
Qed.

Lemma child_error_reaches_fatal_log_witness :
  In (EvRun "" args_default [] (Some "exit status 1"))
     (trace (snd (Main world_child_fails)))
  /\ result (run (Execute world_child_fails) NewDefaultTester)
     = inl "exit status 1"
  /\ fst (Main world_child_fails) = 255
  /\ exists before,
       trace (snd (Main world_child_fails))
       = (before ++ [EvRun "" args_default [] (Some "exit status 1");
                     EvFatal ("failed to run ginkgo tester: "
                                ++ "exit status 1")])%list
       /\ filter is_run before = [].
Proof.
  assert (H : In (EvRun "" args_default [] (Some "exit status 1"))
                 (trace (snd (Main world_child_fails))))
    by (vm_compute; do 3 right; left; reflexivity).
  split; [exact H|].
  apply (child_error_reaches_fatal_log world_child_fails "" args_default []
           "exit status 1" H).
Defined.

(** X6: every error [Execute] returns has one of eight causes, and tells
    which: the flag set, the command line, the run directory, the metadata
    write (its error as it is), the clone, the kubeconfig, the split of
    [--ginkgo-args], or the child process (its error as it is). *)
Theorem Execute_error_sources (w : World) (t : Tester) (e : error) :
  result (run (Execute w) t) = inl e ->
  (exists u, gpflag_Parse w = Some u
             /\ e = "failed to initialize tester: " ++ u)
  \/ (exists u, status (fs_Parse w) = inl u
                /\ e = "failed to parse flags: " ++ u)
  \/ (exists u, LookupEnv w "KUBETEST2_RUN_DIR" = None
                /\ Getwd w = inl u
                /\ e = "failed to set run dir: " ++ u)
  \/ WriteVersionToMetadata w (GitTag w) = Some e
  \/ (exists dir u,
        In (EvClone dir (Repo (parsed w t)) (Some u))
           (events (run (Execute w) t))
        /\ e = "failed to clone repo: " ++ u)
  \/ (kubeconfigPath t = "" /\ LookupEnv w "KUBECONFIG" = None
      /\ e = "kubeconfig path not provided")
  \/ (exists u, shellquote.Split (GinkgoArgs (parsed w t)) = inl u
                /\ e = "error parsing --gingko-args: " ++ u)
  \/ (exists path args env,
        In (EvRun path args env (Some e)) (events (run (Execute w) t))).
Proof.
  intro Hres.
  by_Execute_outcome w t; unfold result, events in *; cbn [fst snd trace] in *;
    try discriminate Hres.
  - left. eexists. split; [eassumption|]. now inversion Hres.
  - right; left. eexists. split; [eassumption|]. now inversion Hres.
  - right; right; left.
    match goal with
    | Hd : resolvedRunDir w = inl _ |- _ => unfold resolvedRunDir in Hd
    end.
    destruct (LookupEnv w "KUBETEST2_RUN_DIR"); [discriminate|].
    eexists. split; [reflexivity|]. split; [eassumption|]. now inversion Hres.
  - do 3 right.
    destruct (parsed_unexported w t) as (Hk & _).
    remember (set_runDir dir (parsed w t)) as t' eqn:Ht'.
    assert (Hkc : kubeconfigPath t' = kubeconfigPath t)
      by (subst t'; exact Hk).
    assert (Hrepo : Repo t' = Repo (parsed w t)) by (subst t'; reflexivity).
    assert (Hga : GinkgoArgs t' = GinkgoArgs (parsed w t))
      by (subst t'; reflexivity).
    clear Ht'.
    by_Test_outcome w t'.
    + left. congruence.
    + right; left. exists (runDir t'), err. rewrite <- Hrepo.
      split; [right; left; reflexivity|now inversion Hres].
    + right; right; left.
      assert (e = "kubeconfig path not provided") by now inversion Hres.
      match goal with
      | Hn : resolvedKubeconfig w t' = None |- _ =>
          unfold resolvedKubeconfig in Hn;
          destruct (kubeconfigPath t' =? "")%string eqn:Heq;
          [|discriminate Hn];
          apply String.eqb_eq in Heq
      end.
      repeat split; congruence.
    + do 3 right; left. exists err. rewrite <- Hga.
      split; [assumption|now inversion Hres].
    + do 4 right.
      destruct (Run w _ _ _) as [e'|] eqn:Hrun; [|discriminate Hres].
      cbn [run_result] in Hres.
      assert (e' = e) by congruence. subst e'.
      do 3 eexists. do 3 right. left. reflexivity.
Qed.

Lemma Execute_error_sources_witness :
  result (run (Execute world_no_cwd) NewDefaultTester)
  = inl "failed to set run dir: getwd: no such file or directory"
  /\ ((exists u, gpflag_Parse world_no_cwd = Some u
          /\ "failed to set run dir: getwd: no such file or directory"
             = "failed to initialize tester: " ++ u)
      \/ (exists u, status (fs_Parse world_no_cwd) = inl u
            /\ "failed to set run dir: getwd: no such file or directory"
               = "failed to parse flags: " ++ u)
      \/ (exists u, LookupEnv world_no_cwd "KUBETEST2_RUN_DIR" = None
            /\ Getwd world_no_cwd = inl u
            /\ "failed to set run dir: getwd: no such file or directory"
               = "failed to set run dir: " ++ u)
      \/ WriteVersionToMetadata world_no_cwd (GitTag world_no_cwd)
         = Some "failed to set run dir: getwd: no such file or directory"
      \/ (exists dir u,
            In (EvClone dir (Repo (parsed world_no_cwd NewDefaultTester))
                  (Some u))
               (events (run (Execute world_no_cwd) NewDefaultTester))
            /\ "failed to set run dir: getwd: no such file or directory"
               = "failed to clone repo: " ++ u)
      \/ (kubeconfigPath NewDefaultTester = ""
          /\ LookupEnv world_no_cwd "KUBECONFIG" = None
          /\ "failed to set run dir: getwd: no such file or directory"
             = "kubeconfig path not provided")
      \/ (exists u,
            shellquote.Split
              (GinkgoArgs (parsed world_no_cwd NewDefaultTester)) = inl u
            /\ "failed to set run dir: getwd: no such file or directory"
               = "error parsing --gingko-args: " ++ u)
      \/ (exists path args env,
            In (EvRun path args env
                  (Some "failed to set run dir: getwd: no such file or directory"))
               (events (run (Execute world_no_cwd) NewDefaultTester)))).
Proof.
  split; [reflexivity|].
  apply (Execute_error_sources world_no_cwd NewDefaultTester
           "failed to set run dir: getwd: no such file or directory").
  reflexivity.
Defined.

(* ================================================================= *)
(** ** What the child process is started with *)

(** The tester [Test] leaves when it has started the child process. *)
Lemma Test_run_final
    (w : World) (t : Tester)
    (path : string) (args env : list string) (res : nilable_error) :
  In (EvRun path args env res) (events (run (Test w) t)) ->
  exists kubeconfig,
    resolvedKubeconfig w t = Some kubeconfig
    /\ final (run (Test w) t) = set_kubeconfigPath kubeconfig t.
Proof.
  intro Hin. by_Test_outcome w t; in_cases Hin.
  eexists. split; [eassumption|reflexivity].
Qed.

(** X7: in a run started by [Main] the kubeconfig path always comes from
    [KUBECONFIG]: the child process is started with the environment list
    of the parsed [--env] and with the split words of the parsed
    [--ginkgo-args], [--nodes], an empty suite path, [--], and the
    kubeconfig, skip, focus, report-directory and timeout flags built from
    [KUBECONFIG] and the parsed flags. *)
Theorem Main_child_invocation
    (w : World) (path : string) (args env : list string)
    (res : nilable_error) :
  In (EvRun path args env res) (trace (snd (Main w))) ->
  exists kubeconfig words,
    LookupEnv w "KUBECONFIG" = Some kubeconfig
    /\ shellquote.Split (GinkgoArgs (parsed w NewDefaultTester)) = inr words
    /\ env = Env (parsed w NewDefaultTester)
    /\ kubeconfigPath (tester (snd (Main w))) = kubeconfig
    /\ args =
       app words
        [ "--nodes=" ++ GoStd.Itoa (Parallel (parsed w NewDefaultTester));
          "";
          "--";
          "--kubeconfig=" ++ kubeconfig;
          "--ginkgo.skip=" ++ SkipRegex (parsed w NewDefaultTester);
          "--ginkgo.focus=" ++ FocusRegex (parsed w NewDefaultTester);
          "--report-dir=" ++ BaseDir w;
          "--ginkgo.timeout="
            ++ GoStd.Duration_String (Timeout (parsed w NewDefaultTester)) ].
Proof.
  intros Hin.
  apply Main_run_event in Hin; [|reflexivity].
  rewrite Main_tester.
  destruct (parsed_unexported w NewDefaultTester) as (Hk & _ & He & _ & _).
  cbn [kubeconfigPath e2eTestPath NewDefaultTester] in Hk, He.
  by_Execute_outcome w NewDefaultTester; unfold events in Hin;
    cbn [snd trace] in Hin; try (in_cases Hin; fail).
  fold (events (run (Test w) (set_runDir dir (parsed w NewDefaultTester))))
    in Hin.
  destruct (Test_run_event w _ path args env res Hin)
    as (kc & words & _ & Hres & Hsplit & _ & Henv & _ & Hargs).
  destruct (Test_run_final w _ path args env res Hin) as (kc' & Hres' & Hf).
  assert (kc' = kc) by congruence. subst kc'.
  unfold resolvedKubeconfig in Hres.
  cbn [kubeconfigPath GinkgoArgs Env Parallel e2eTestPath SkipRegex
       FocusRegex Timeout set_runDir] in Hres, Hsplit, Henv, Hargs.
  rewrite Hk in Hres. cbn [String.eqb] in Hres.
  rewrite He in Hargs.
  exists kc, words. repeat (split; [assumption|]).
  split; [|exact Hargs].
  rewrite Hf. reflexivity.
Qed.

Lemma Main_child_invocation_witness :
  In (EvRun "" args_default [] None) (trace (snd (Main quiet_world)))
  /\ exists kubeconfig words,
       LookupEnv quiet_world "KUBECONFIG" = Some kubeconfig
       /\ shellquote.Split (GinkgoArgs (parsed quiet_world NewDefaultTester))
          = inr words
       /\ [] = Env (parsed quiet_world NewDefaultTester)
       /\ kubeconfigPath (tester (snd (Main quiet_world))) = kubeconfig
       /\ args_default =
          app words
           [ "--nodes="
               ++ GoStd.Itoa (Parallel (parsed quiet_world NewDefaultTester));
             "";
             "--";
             "--kubeconfig=" ++ kubeconfig;
             "--ginkgo.skip="
               ++ SkipRegex (parsed quiet_world NewDefaultTester);
             "--ginkgo.focus="
               ++ FocusRegex (parsed quiet_world NewDefaultTester);
             "--report-dir=" ++ BaseDir quiet_world;
             "--ginkgo.timeout="
               ++ GoStd.Duration_String
                    (Timeout (parsed quiet_world NewDefaultTester)) ].
Proof.
  assert (H : In (EvRun "" args_default [] None)
                 (trace (snd (Main quiet_world))))
    by (vm_compute; do 3 right; left; reflexivity).
  split; [exact H|].
  apply (Main_child_invocation quiet_world "" args_default [] None H).
Defined.

(** X8: a kubeconfig path already in the tester wins over the environment:
    [Test] then behaves the same whatever the environment holds, leaves the
    tester as it was, and hands that path to the child process.  (This is
    the state a first call of [Test] leaves for a second one.) *)
Theorem configured_kubeconfig_wins (w : World) (t : Tester) :
  kubeconfigPath t <> "" ->
  (forall environment,
      run (Test (with_LookupEnv environment w)) t = run (Test w) t)
  /\ final (run (Test w) t) = t
  /\ (forall path args env res,
        In (EvRun path args env res) (events (run (Test w) t)) ->
        In ("--kubeconfig=" ++ kubeconfigPath t) args).
Proof.
  intro Hne.
  assert (Heqb : (kubeconfigPath t =? "")%string = false)
    by (now apply String.eqb_neq).
  assert (Hres : forall w0, resolvedKubeconfig w0 t = Some (kubeconfigPath t))
    by (intro w0; unfold resolvedKubeconfig; now rewrite Heqb).
  split; [|split].
  - intro environment.
    unfold run, Test, pretestSetup, bind, check, emit, modifyT, getT, ret,
      fail, Errorf.
    cbn [tester trace app WriteVersionToMetadata GitTag PlainClone
         with_LookupEnv].
    destruct (WriteVersionToMetadata w (GitTag w)); [reflexivity|].
    cbn [tester trace app].
    destruct (PlainClone w (runDir t) (Repo t)); [reflexivity|].
    cbn [tester trace app]. rewrite Heqb. reflexivity.
  - destruct (Test_final w t) as [Hf|(kc & Hk & Hf)]; [assumption|].
    rewrite Hf. rewrite Hres in Hk. inversion Hk.
    apply set_kubeconfigPath_same.
  - intros path args env res Hin.
    destruct (Test_run_event w t path args env res Hin)
      as (kc & words & _ & Hk & _ & _ & _ & _ & ->).
    rewrite Hres in Hk. inversion Hk; subst kc.
    apply in_or_app. right. do 3 right. left. reflexivity.
Qed.

Lemma configured_kubeconfig_wins_witness :
  kubeconfigPath (set_kubeconfigPath "/etc/kube/admin.conf" tester_default)
  <> ""
  /\ (forall environment,
        run (Test (with_LookupEnv environment quiet_world))
          (set_kubeconfigPath "/etc/kube/admin.conf" tester_default)
        = run (Test quiet_world)
            (set_kubeconfigPath "/etc/kube/admin.conf" tester_default))
  /\ final (run (Test quiet_world)
              (set_kubeconfigPath "/etc/kube/admin.conf" tester_default))
     = set_kubeconfigPath "/etc/kube/admin.conf" tester_default
  /\ (forall path args env res,
        In (EvRun path args env res)
           (events (run (Test quiet_world)
                      (set_kubeconfigPath "/etc/kube/admin.conf"
                         tester_default))) ->
        In ("--kubeconfig="
              ++ kubeconfigPath
                   (set_kubeconfigPath "/etc/kube/admin.conf" tester_default))
           args).
Proof.
  assert (H : kubeconfigPath
                (set_kubeconfigPath "/etc/kube/admin.conf" tester_default)
              <> "") by (cbn; discriminate).
  split; [exact H|].
  apply (configured_kubeconfig_wins quiet_world _ H).
Defined.

(* ================================================================= *)
(** ** The flag nothing reads *)

(** [Execute], step by step. *)
Lemma Execute_run_eq (w : World) (t : Tester) :
  run (Execute w) t
  = match gpflag_Parse w with
    | Some err =>
        (inl ("failed to initialize tester: " ++ err),
         {| tester := t; trace := [] |})
    | None =>
        match status (fs_Parse w) with
        | inl err =>
            (inl ("failed to parse flags: " ++ err),
             {| tester := parsed w t; trace := [] |})
        | inr true =>
            (inr tt,
             {| tester := parsed w t; trace := [EvPrintDefaults Stdout] |})
        | inr false => run (after_parsing w) (parsed w t)
        end
    end.
Proof.
  unfold run, Execute, after_parsing, bind, check, modifyT, emit, ret, fail,
    Errorf; cbn [tester trace app].
  destruct (gpflag_Parse w); [reflexivity|].
  cbn [tester trace app]. fold (parsed w t).
  destruct (status (fs_Parse w)) as [e|[|]]; reflexivity.
Qed.

(** [Test] on two testers that differ in [FlakeAttempts] only. *)
Lemma Test_ignores_FlakeAttempts (w : World) (t1 t2 : Tester) :
  same_except_FlakeAttempts t1 t2 ->
  result (run (Test w) t1) = result (run (Test w) t2)
  /\ events (run (Test w) t1) = events (run (Test w) t2).
Proof.
  intro Hsame.
  rewrite (same_except_FlakeAttempts_set t1 t2 Hsame).
  rewrite Test_set_FlakeAttempts. split; reflexivity.
Qed.

(** The exit status and the trace of [Main] are read off what [Execute]
    returns and does. *)
Lemma Main_from_Execute (w1 w2 : World) :
  result (run (Execute w1) NewDefaultTester)
  = result (run (Execute w2) NewDefaultTester) ->
  events (run (Execute w1) NewDefaultTester)
  = events (run (Execute w2) NewDefaultTester) ->
  fst (Main w1) = fst (Main w2)
  /\ trace (snd (Main w1)) = trace (snd (Main w2)).
Proof.
  unfold Main, result, events, run.
  destruct (Execute w1 _) as [[e1|[]] s1];
    destruct (Execute w2 _) as [[e2|[]] s2];
    cbn [fst snd trace]; intros Hr He; try discriminate Hr.
  - inversion Hr; subst. rewrite He. split; reflexivity.
  - split; [reflexivity|assumption].
Qed.

(** The flag set is consulted by flag parsing only. *)
Lemma after_parsing_with_fs_Parse (p : ParseOutcome) (w : World) :
  after_parsing (with_fs_Parse p w) = after_parsing w.
Proof. reflexivity. Qed.

Lemma parsed_with_fs_Parse (p : ParseOutcome) (w : World) (t : Tester) :
  parsed (with_fs_Parse p w) t = fold_left apply_write (writes p) t.
Proof. reflexivity. Qed.

Lemma same_except_FlakeAttempts_set_runDir (dir : string) (t1 t2 : Tester) :
  same_except_FlakeAttempts t1 t2 ->
  same_except_FlakeAttempts (set_runDir dir t1) (set_runDir dir t2).
Proof.
  unfold same_except_FlakeAttempts.
  cbn [set_runDir GinkgoArgs Parallel SkipRegex FocusRegex Timeout Env Repo
       kubeconfigPath runDir e2eTestPath ginkgoPath kubectlPath].
  intuition.
Qed.

(** X9: [--flake-attempts] is accepted and then ignored: two command lines
    that parse to configurations differing in [FlakeAttempts] only make
    the process do the same things and exit with the same status. *)
Theorem flake_attempts_flag_ignored (w : World) (ws : list FlagWrite) :
  same_except_FlakeAttempts
    (fold_left apply_write ws NewDefaultTester)
    (parsed w NewDefaultTester) ->
  fst (Main (with_fs_Parse
               {| writes := ws; status := status (fs_Parse w) |} w))
  = fst (Main w)
  /\ trace (snd (Main (with_fs_Parse
                         {| writes := ws; status := status (fs_Parse w) |}
                         w)))
     = trace (snd (Main w)).
Proof.
  intro Hsame.
  apply Main_from_Execute.
  all: rewrite !Execute_run_eq.
  all: rewrite after_parsing_with_fs_Parse, parsed_with_fs_Parse.
  all: cbn [gpflag_Parse fs_Parse status writes with_fs_Parse].
  all: destruct (gpflag_Parse w); [reflexivity|].
  all: destruct (status (fs_Parse w)) as [e|[|]];
    [reflexivity|reflexivity|].
  all: rewrite !after_parsing_run.
  all: destruct (resolvedRunDir w) as [e|dir]; [reflexivity|].
  all: apply (Test_ignores_FlakeAttempts w
                (set_runDir dir (fold_left apply_write ws NewDefaultTester))
                (set_runDir dir (parsed w NewDefaultTester))).
  all: now apply same_except_FlakeAttempts_set_runDir.
Qed.

Lemma flake_attempts_flag_ignored_witness :
  same_except_FlakeAttempts
    (fold_left apply_write [WFlakeAttempts 5] NewDefaultTester)
    (parsed quiet_world NewDefaultTester)
  /\ fst (Main (with_fs_Parse
                  {| writes := [WFlakeAttempts 5];
                     status := status (fs_Parse quiet_world) |} quiet_world))
     = fst (Main quiet_world)
  /\ trace (snd (Main (with_fs_Parse
                         {| writes := [WFlakeAttempts 5];
                            status := status (fs_Parse quiet_world) |}
                         quiet_world)))
     = trace (snd (Main quiet_world)).
Proof.
  assert (H : same_except_FlakeAttempts
                (fold_left apply_write [WFlakeAttempts 5] NewDefaultTester)
                (parsed quiet_world NewDefaultTester))
    by (repeat split).
  split; [exact H|].
  apply (flake_attempts_flag_ignored quiet_world [WFlakeAttempts 5] H).
Defined.

(* ================================================================= *)
(** ** Extra arguments that need no quoting *)

Lemma all_chars_write (p : ascii -> bool) (s : string) (c : ascii) :
  all_chars p s = true -> p c = true ->
  all_chars p (shellquote.write s c) = true.
Proof.
  intros Hs Hc. unfold shellquote.write.
  induction s as [|a s IH]; cbn [all_chars append] in *.
  - now rewrite Hc.
  - apply andb_true_iff in Hs. destruct Hs as [Ha Hs].
    rewrite Ha. cbn [andb]. now apply IH.
Qed.

Lemma solid_write (s : string) (c : ascii) :
  (s = "" \/ solid s) -> shellquote.isSplitChar c = false ->
  solid (shellquote.write s c).
Proof.
  intros Hs Hc. split.
  - unfold shellquote.write. destruct s; discriminate.
  - apply all_chars_write; [|now rewrite Hc].
    destruct Hs as [->|[_ Hs]]; [reflexivity|assumption].
Qed.

Lemma not_quoting (c : ascii) :
  isQuoting c = false ->
  Ascii.eqb c shellquote.singleChar = false
  /\ Ascii.eqb c shellquote.doubleChar = false
  /\ Ascii.eqb c shellquote.escapeChar = false.
Proof.
  unfold isQuoting. intro H.
  apply orb_false_iff in H. destruct H as [H He].
  apply orb_false_iff in H. destruct H as [Hs Hd].
  auto.
Qed.

(** Without quotes and backslashes the splitter never fails, between words
    or inside one, and every word it adds is solid. *)
Lemma scan_plain (input : string) :
  plain input = true ->
  forall words,
    (forall buf, exists new,
        shellquote.scan shellquote.Between words buf input
        = inr (words ++ new)%list
        /\ Forall solid new)
    /\ (forall buf, solid buf -> exists new,
          shellquote.scan shellquote.Raw words buf input
          = inr (words ++ new)%list
          /\ Forall solid new).
Proof.
  induction input as [|c rest IH]; intros Hplain words.
  - split.
    + intro buf. exists []. split; [now rewrite app_nil_r|constructor].
    + intros buf Hbuf. exists [buf]. split; [reflexivity|].
      constructor; [assumption|constructor].
  - unfold plain in Hplain. cbn [all_chars] in Hplain.
    apply andb_true_iff in Hplain. destruct Hplain as [Hc Hrest].
    apply negb_true_iff in Hc.
    destruct (not_quoting c Hc) as (Hs & Hd & He).
    specialize (IH Hrest).
    split.
    + intro buf. cbn [shellquote.scan].
      destruct (shellquote.isSplitChar c) eqn:Hsp.
      * apply (IH words).
      * rewrite He, Hs, Hd.
        apply (IH words). apply (solid_write "" c); [now left|assumption].
    + intros buf Hbuf. cbn [shellquote.scan].
      rewrite Hs, Hd, He.
      destruct (shellquote.isSplitChar c) eqn:Hsp.
      * destruct (proj1 (IH (words ++ [buf])%list) "") as (new & Hscan & Hnew).
        exists (buf :: new). split.
        -- rewrite Hscan. now rewrite <- app_assoc.
        -- now constructor.
      * apply (IH words). apply solid_write; [now right|assumption].
Qed.

(** Blank input holds no word. *)
Lemma scan_blank (input : string) :
  blank input = true ->
  forall words buf,
    shellquote.scan shellquote.Between words buf input = inr words.
Proof.
  induction input as [|c rest IH]; intros Hb words buf; [reflexivity|].
  unfold blank in Hb. cbn [all_chars] in Hb.
  apply andb_true_iff in Hb. destruct Hb as [Hc Hrest].
  cbn [shellquote.scan]. rewrite Hc. now apply IH.
Qed.

(** X10: extra arguments without quote and backslash characters always
    split, into words that are not empty and hold no space, tab or
    newline; so [Test] does not stop at the split: once the metadata
    write, the clone and the kubeconfig resolution succeed, it starts the
    child process. *)
Theorem plain_arguments_always_split (w : World) (t : Tester) :
  plain (GinkgoArgs t) = true ->
  exists words,
    shellquote.Split (GinkgoArgs t) = inr words
    /\ Forall solid words
    /\ (metadata_and_clone_succeed w t ->
        resolvedKubeconfig w t <> None ->
        List.length (filter is_run (events (run (Test w) t))) = 1%nat).
Proof.
  intro Hplain.
  destruct (proj1 (scan_plain (GinkgoArgs t) Hplain []) "")
    as (words & Hscan & Hsolid).
  exists words. split; [exact Hscan|]. split; [assumption|].
  intros Hok Hres.
  destruct (resolvedKubeconfig w t) as [kc|] eqn:Hk; [|contradiction].
  destruct (Test_starts_child w t kc words Hok Hk Hscan) as [Hrun _].
  rewrite Hrun. reflexivity.
Qed.

Lemma plain_arguments_always_split_witness :
  plain (GinkgoArgs tester_nodes_twice) = true
  /\ exists words,
       shellquote.Split (GinkgoArgs tester_nodes_twice) = inr words
       /\ Forall solid words
       /\ (metadata_and_clone_succeed quiet_world tester_nodes_twice ->
           resolvedKubeconfig quiet_world tester_nodes_twice <> None ->
           List.length
             (filter is_run
                (events (run (Test quiet_world) tester_nodes_twice)))
           = 1%nat).
Proof.
  split; [reflexivity|].
  apply (plain_arguments_always_split quiet_world tester_nodes_twice).
  reflexivity.
Defined.

(** X12: blank extra arguments, the empty default among them, add no word:
    the argument vector of the child process starts with the [--nodes]
    token. *)
Theorem blank_arguments_add_nothing
    (w : World) (t : Tester)
    (path : string) (args env : list string) (res : nilable_error) :
  blank (GinkgoArgs t) = true ->
  In (EvRun path args env res) (events (run (Test w) t)) ->
  shellquote.Split (GinkgoArgs t) = inr []
  /\ exists rest,
       args = app [ "--nodes=" ++ GoStd.Itoa (Parallel t);
                    e2eTestPath t; "--" ] rest
       /\ List.length rest = 5%nat.
Proof.
  intros Hb Hin.
  assert (Hsplit : shellquote.Split (GinkgoArgs t) = inr [])
    by (now apply scan_blank).
  split; [assumption|].
  destruct (Test_run_event w t path args env res Hin)
    as (kc & words & _ & _ & Hsplit' & _ & _ & _ & ->).
  assert (words = []) by congruence. subst words.
  eexists. split; reflexivity.
Qed.

Lemma blank_arguments_add_nothing_witness :
  blank (GinkgoArgs tester_default) = true
  /\ In (EvRun "" args_default [] None)
        (events (run (Test quiet_world) tester_default))
  /\ shellquote.Split (GinkgoArgs tester_default) = inr []
  /\ exists rest,
       args_default
       = app [ "--nodes=" ++ GoStd.Itoa (Parallel tester_default);
               e2eTestPath tester_default; "--" ] rest
       /\ List.length rest = 5%nat.
Proof.
  assert (H : In (EvRun "" args_default [] None)
                 (events (run (Test quiet_world) tester_default)))
    by (vm_compute; do 3 right; left; reflexivity).
  split; [reflexivity|]. split; [exact H|].
  apply (blank_arguments_add_nothing quiet_world tester_default ""
           args_default [] None); [reflexivity|exact H].
Defined.

(* ================================================================= *)
(** ** The parallelism token *)

Lemma N_of_digit (d : N) :
  (d < 10)%N -> N_of_ascii (GoStd.digit d) = (48 + d)%N.
Proof.
  intro Hd. unfold GoStd.digit. apply N_ascii_embedding. lia.
Qed.

Lemma digits_value_cons (d : N) (s : string) :
  (d < 10)%N ->
  digits_value (String (GoStd.digit d) s)
  = (d * 10 ^ N.of_nat (String.length s) + digits_value s)%N.
Proof.
  intro Hd. cbn [digits_value]. rewrite N_of_digit by assumption.
  replace (48 + d - 48)%N with d by lia. reflexivity.
Qed.

(** The digits the loop of [fmtInt] writes stand for the number it was
    given. *)
Lemma fmtInt_loop_value (fuel : nat) :
  forall (v : N) (buf : string),
    (v < 2 ^ N.of_nat fuel)%N ->
    digits_value (GoStd.fmtInt_loop fuel v buf)
    = (v * 10 ^ N.of_nat (String.length buf) + digits_value buf)%N.
Proof.
  induction fuel as [|f IH]; intros v buf Hv.
  - assert (v = 0%N) by (cbn in Hv; lia). subst v. reflexivity.
  - cbn [GoStd.fmtInt_loop].
    destruct (N.eqb_spec v 0) as [->|Hne]; [reflexivity|].
    rewrite IH by now apply div10_lt_pow2.
    rewrite digits_value_cons by (apply N.mod_lt; discriminate).
    cbn [String.length]. rewrite Nat2N.inj_succ, N.pow_succ_r'.
    pose proof (N.div_mod v 10) as Hdm.
    specialize (Hdm ltac:(discriminate)).
    rewrite Hdm at 3. ring.
Qed.

Lemma fmtInt_value (v : N) : digits_value (GoStd.fmtInt v "") = v.
Proof.
  unfold GoStd.fmtInt.
  destruct (N.eqb_spec v 0) as [->|Hne]; [reflexivity|].
  rewrite fmtInt_loop_value by (rewrite N2Nat.id; apply N.size_gt).
  cbn. lia.
Qed.

Lemma fmtInt_loop_head (fuel : nat) :
  forall (v : N) (buf : string),
    starts_with_digit buf ->
    starts_with_digit (GoStd.fmtInt_loop fuel v buf).
Proof.
  induction fuel as [|f IH]; intros v buf Hb; [assumption|].
  cbn [GoStd.fmtInt_loop].
  destruct (v =? 0)%N; [assumption|].
  apply IH. exists (v mod 10)%N, buf.
  split; [apply N.mod_lt; discriminate|reflexivity].
Qed.

Lemma fmtInt_head (v : N) : starts_with_digit (GoStd.fmtInt v "").
Proof.
  unfold GoStd.fmtInt.
  destruct (N.eqb_spec v 0) as [->|Hne].
  - exists 0%N, "". split; [lia|reflexivity].
  - destruct v as [|p]; [contradiction|].
    cbn [N.size N.to_nat].
    destruct (Pos2Nat.is_succ (Pos.size p)) as [n ->].
    cbn [GoStd.fmtInt_loop]. cbn [N.eqb].
    apply fmtInt_loop_head.
    exists (N.pos p mod 10)%N, "".
    split; [apply N.mod_lt; discriminate|reflexivity].
Qed.

Lemma digit_not_minus (d : N) (s s' : string) :
  (d < 10)%N -> String "-" s <> String (GoStd.digit d) s'.
Proof.
  intros Hd H. inversion H as [[Hc Hs]].
  apply (f_equal N_of_ascii) in Hc.
  rewrite N_of_digit in Hc by assumption.
  change (N_of_ascii "-") with 45%N in Hc. lia.
Qed.

(** [Itoa] gives different numbers different strings. *)
Lemma Itoa_injective (a b : Z) : GoStd.Itoa a = GoStd.Itoa b -> a = b.
Proof.
  unfold GoStd.Itoa.
  destruct (Z.ltb_spec a 0) as [Ha|Ha]; destruct (Z.ltb_spec b 0) as [Hb|Hb];
    intro H.
  - inversion H as [H'].
    apply (f_equal digits_value) in H'. rewrite !fmtInt_value in H'. lia.
  - exfalso. destruct (fmtInt_head (Z.to_N b)) as (d & s & Hd & Hs).
    rewrite Hs in H. now apply digit_not_minus in H.
  - exfalso. destruct (fmtInt_head (Z.to_N a)) as (d & s & Hd & Hs).
    rewrite Hs in H. symmetry in H. now apply digit_not_minus in H.
  - apply (f_equal digits_value) in H. rewrite !fmtInt_value in H. lia.
Qed.

(** X11: the [--nodes] token tells the parallelism apart: two testers with
    different [Parallel] never get the same token, whatever the sign or
    size of the numbers. *)
Theorem nodes_token_tells_parallelism (w : World) (t1 t2 : Tester)
    (words1 words2 : list string) :
  Parallel t1 <> Parallel t2 ->
  nth (List.length words1) (ginkgoArgs w t1 words1) ""
  <> nth (List.length words2) (ginkgoArgs w t2 words2) "".
Proof.
  intros Hne H.
  unfold ginkgoArgs in H.
  rewrite <- !app_assoc in H.
  rewrite (app_nth2 words1 _ "" (le_n _)) in H.
  rewrite (app_nth2 words2 _ "" (le_n _)) in H.
  rewrite !Nat.sub_diag in H. cbn [app nth] in H.
  apply Hne, Itoa_injective.
  cbn [append] in H. now inversion H.
Qed.

Lemma nodes_token_tells_parallelism_witness :
  Parallel tester_default <> Parallel tester_quoted
  /\ nth (List.length (@nil string))
         (ginkgoArgs quiet_world tester_default []) ""
     <> nth (List.length ["--foo"; "bar"; "--baz"; "qux quux"])
            (ginkgoArgs quiet_world tester_quoted
               ["--foo"; "bar"; "--baz"; "qux quux"]) "".
Proof.
  assert (H : Parallel tester_default <> Parallel tester_quoted)
    by (cbn; discriminate).
  split; [exact H|].
  apply (nodes_token_tells_parallelism quiet_world tester_default
           tester_quoted [] ["--foo"; "bar"; "--baz"; "qux quux"] H).
Defined.

(* ================================================================= *)
(** ** What is checked before the clone *)

(** X13: [Test] checks nothing of the configuration before it clones: once
    the metadata write succeeds, the repository is cloned into the run
    directory, once, whatever the kubeconfig and the extra arguments are;
    a missing kubeconfig and arguments that do not split are found after
    the clone. *)
Theorem clone_precedes_validation (w : World) (t : Tester) :
  WriteVersionToMetadata w (GitTag w) = None ->
  filter is_clone (events (run (Test w) t))
  = [EvClone (runDir t) (Repo t) (PlainClone w (runDir t) (Repo t))].
Proof.
  intro Hwv.
  by_Test_outcome w t;
    repeat match goal with
    | H : metadata_and_clone_succeed _ _ |- _ => destruct H
    end;
    try congruence; cbn [filter is_clone]; congruence.
Qed.

Lemma clone_precedes_validation_witness :
  WriteVersionToMetadata world_no_kubeconfig (GitTag world_no_kubeconfig)
  = None
  /\ resolvedKubeconfig world_no_kubeconfig tester_unterminated = None
  /\ shellquote.Split (GinkgoArgs tester_unterminated)
     = inl shellquote.UnterminatedSingleQuoteError
  /\ filter is_clone
       (events (run (Test world_no_kubeconfig) tester_unterminated))
     = [EvClone (runDir tester_unterminated) (Repo tester_unterminated)
          (PlainClone world_no_kubeconfig (runDir tester_unterminated)
             (Repo tester_unterminated))].
Proof.
  split; [reflexivity|]. split; [reflexivity|]. split; [reflexivity|].
  apply (clone_precedes_validation world_no_kubeconfig tester_unterminated).
  reflexivity.
Defined.
